(** * Resumia backend: the resume-analysis endpoint

    A shallow embedding of [backend/main.py]: the upload validation, the
    text extraction, the prompt construction, the bounded retry around the
    external model, the exception handlers of the endpoint, the module
    initialisation and the health endpoint.

    Python values are modelled as follows.
    - [str] is a list of Unicode code points ([pystr]); [py] embeds an ASCII
      literal.
    - [bytes] is a [list byte].
    - A raised exception is a value of [exn], which tells the instances
      of [Exception] from the exceptions an [except Exception] clause does
      not catch; a computation that may raise, call an external
      collaborator or sleep lives in the monad [M], which threads the
      number of model calls made so far and emits a trace of [event]s.
    - The two external collaborators (pdfminer's [extract_text] and the
      Gemini [generate_content]) are the fields of [externals].
    - The calls to [logger] only write to the log; they are left out. *)

From Stdlib Require Import List String Ascii Bool Arith NArith ZArith Lia.
From Stdlib Require Import Init.Byte.
Import ListNotations.

(* ================================================================= *)
(** ** Python strings *)

Module PyStr.

(** A Python [str]: a sequence of Unicode code points. *)
Definition pystr := list N.

Definition py (s : string) : pystr :=
  map N_of_ascii (list_ascii_of_string s).

(** [c.lower()] for one code point.  Only [A]..[Z] are mapped.  The full
    Unicode mapping differs from this one on non-ASCII code points alone,
    and the lowercase of such a code point never contains any of the
    characters [.pdfocxt] the endpoint compares against, so [endswith] on
    those suffixes cannot tell the two mappings apart. *)
Definition lower_char (c : N) : N :=
  if ((65 <=? c) && (c <=? 90))%N then (c + 32)%N else c.

(** [s.lower()] *)
Definition lower (s : pystr) : pystr := map lower_char s.

Fixpoint startswith (s prefix : pystr) : bool :=
  match prefix, s with
  | [], _ => true
  | _ :: _, [] => false
  | p :: prefix', c :: s' => (c =? p)%N && startswith s' prefix'
  end.

(** [s.endswith(suffix)] *)
Definition endswith (s suffix : pystr) : bool :=
  startswith (rev s) (rev suffix).

(** [s.endswith((suffix1, suffix2, ...))] *)
Definition endswith_any (s : pystr) (suffixes : list pystr) : bool :=
  existsb (endswith s) suffixes.

(** [s[:n]] for a non-negative [n]. *)
Definition slice_to (n : N) (s : pystr) : pystr := firstn (N.to_nat n) s.

End PyStr.
Import PyStr.

(* ================================================================= *)
(** ** [bytes.decode('utf-8')] *)

Module Utf8.

Definition between (lo hi x : N) : bool := ((lo <=? x) && (x <=? hi))%N.

(** A continuation byte [10xxxxxx]. *)
Definition is_cont (x : N) : bool := between 0x80 0xBF x.

(** The payload of a continuation byte. *)
Definition cont (x : N) : N := (x - 0x80)%N.

(** Bounds on the second byte of a three-byte sequence: [E0] excludes the
    overlong encodings, [ED] excludes the surrogates. *)
Definition second3 (x0 x1 : N) : bool :=
  if (x0 =? 0xE0)%N then between 0xA0 0xBF x1
  else if (x0 =? 0xED)%N then between 0x80 0x9F x1
  else is_cont x1.

(** Bounds on the second byte of a four-byte sequence: [F0] excludes the
    overlong encodings, [F4] excludes code points above [10FFFF]. *)
Definition second4 (x0 x1 : N) : bool :=
  if (x0 =? 0xF0)%N then between 0x90 0xBF x1
  else if (x0 =? 0xF4)%N then between 0x80 0x8F x1
  else is_cont x1.

(** The strict decoder: [None] stands for [UnicodeDecodeError]. *)
Fixpoint decode (bs : list byte) : option pystr :=
  match bs with
  | [] => Some []
  | b0 :: r0 =>
    let x0 := Byte.to_N b0 in
    if (x0 <? 0x80)%N then
      option_map (cons x0) (decode r0)
    else if between 0xC2 0xDF x0 then
      match r0 with
      | b1 :: r1 =>
        let x1 := Byte.to_N b1 in
        if is_cont x1
        then option_map (cons ((x0 - 0xC0) * 64 + cont x1)%N) (decode r1)
        else None
      | _ => None
      end
    else if between 0xE0 0xEF x0 then
      match r0 with
      | b1 :: b2 :: r2 =>
        let x1 := Byte.to_N b1 in
        let x2 := Byte.to_N b2 in
        if second3 x0 x1 && is_cont x2
        then option_map
               (cons ((x0 - 0xE0) * 4096 + cont x1 * 64 + cont x2)%N)
               (decode r2)
        else None
      | _ => None
      end
    else if between 0xF0 0xF4 x0 then
      match r0 with
      | b1 :: b2 :: b3 :: r3 =>
        let x1 := Byte.to_N b1 in
        let x2 := Byte.to_N b2 in
        let x3 := Byte.to_N b3 in
        if second4 x0 x1 && is_cont x2 && is_cont x3
        then option_map
               (cons ((x0 - 0xF0) * 262144 + cont x1 * 4096
                      + cont x2 * 64 + cont x3)%N)
               (decode r3)
        else None
      | _ => None
      end
    else None
  end.

(** [b"...".decode()] of an ASCII literal. *)
Definition bytes_of_string (s : string) : list byte := list_byte_of_string s.

End Utf8.

(* ================================================================= *)
(** ** Exceptions, results and the effect monad *)

Inductive exn : Type :=
| HTTPException (status_code : Z) (detail : string)
| UnicodeDecodeError
| ValueError (msg : string)
| OverflowError (msg : string)
| RuntimeError (msg : string)
| Exception (msg : string)
| BaseException (msg : string).

(** [isinstance(e, Exception)].  Every class above derives from
    [Exception] but the last one, which stands for the exceptions that do
    not: [KeyboardInterrupt], [SystemExit], [GeneratorExit],
    [asyncio.CancelledError]. *)
Definition is_Exception (e : exn) : bool :=
  match e with
  | BaseException _ => false
  | _ => true
  end.

Inductive result (A : Type) : Type :=
| Ok (a : A)
| Raise (e : exn).
Arguments Ok {A} a.
Arguments Raise {A} e.

(** [genai.GenerativeModel(name)]: a client handle, no remote call. *)
Record GenerativeModel : Type := { model_name : string }.

Record GenerationConfig : Type :=
  { temperature_percent : Z;      (* temperature 0.3 is 30 percent *)
    max_output_tokens : Z }.

(** The object returned by [generate_content].  [text r] is what reading
    the property [r.text] gives: the text of the answer, or [None] when
    the answer holds no text part (a blocked or empty candidate) and the
    property raises [ValueError]. *)
Record GenerateContentResponse : Type := { text : option pystr }.

(** The collaborators outside the repository.  A failure carries the
    message of the exception the collaborator raises: an instance of
    [Exception] of the collaborator's own library, which is never
    FastAPI's [HTTPException] (neither library knows FastAPI).  The model
    may answer differently on every call: its first argument is the
    number of calls made before this one. *)
Record externals : Type :=
  { pdf_extract_text : list byte -> pystr + string;
    model_generate_content :
      nat -> GenerativeModel -> pystr -> GenerationConfig ->
      GenerateContentResponse + string }.

(** What a request does to the outside world, in order. *)
Inductive event : Type :=
| EvExtractText (contents : list byte)
| EvGenerateContent (prompt : pystr)
                    (outcome : GenerateContentResponse + string)
| EvSleep (seconds : Z).

(** A computation: from the number of model calls made so far to a result,
    the new number of calls and the events emitted. *)
Definition M (A : Type) : Type := nat -> result A * nat * list event.

Definition ret {A} (a : A) : M A := fun n => (Ok a, n, []).

Definition raise {A} (e : exn) : M A := fun n => (Raise e, n, []).

Definition bind {A B} (m : M A) (f : A -> M B) : M B :=
  fun n =>
    match m n with
    | (Ok a, n1, t1) =>
      let '(r, n2, t2) := f a n1 in (r, n2, t1 ++ t2)
    | (Raise e, n1, t1) => (Raise e, n1, t1)
    end.

(** [try: m  except Exception as e: handler e] where the [try] body ends
    in [return]: a result of [m] is the result of the whole statement, an
    instance of [Exception] goes to the handler, and any other exception
    is not caught.  What the handler raises leaves the statement. *)
Definition try_except {A} (m : M A) (handler : exn -> M A) : M A :=
  fun n =>
    match m n with
    | (Ok a, n1, t1) => (Ok a, n1, t1)
    | (Raise e, n1, t1) =>
      if is_Exception e then
        let '(r, n2, t2) := handler e n1 in (r, n2, t1 ++ t2)
      else (Raise e, n1, t1)
    end.

Declare Scope py_scope.
Delimit Scope py_scope with py.
Notation "x <- m ;; k" := (bind m (fun x => k))
  (at level 100, m at next level, right associativity) : py_scope.
Notation "m ;; k" := (bind m (fun _ => k))
  (at level 100, right associativity) : py_scope.
Open Scope py_scope.

(** The outcome of a collaborator in the monad: its failure is raised as
    an instance of [Exception] that carries the message. *)
Definition of_sum {A} (o : A + string) : result A :=
  match o with
  | inl a => Ok a
  | inr msg => Raise (Exception msg)
  end.

(** [len(x)] *)
Definition len {A} (l : list A) : Z := Z.of_nat (List.length l).

(* ================================================================= *)
(** ** The analysis endpoint *)

Definition MODEL_NAME : string := "gemini-1.5-flash".

Definition dquote : string := String (ascii_of_nat 34) EmptyString.

(** A double-quoted word of the prompt template. *)
Definition q (s : string) : string := (dquote ++ s ++ dquote)%string.

(** The literal part of the f-string of [retry_gemini_request]. *)
Definition PROMPT_TEMPLATE : string :=
  ("You are an expert Resume Analyzer AI. Your task is to meticulously analyze the provided resume text and return ONLY a valid JSON object, adhering strictly to the specified format and constraints. Do not include any introductory text, explanations, or markdown formatting around the JSON output.**Analysis Context & Criteria:: {"
  ++ q "score" ++ ": 0-100, "
  ++ q "summary" ++ ": " ++ q "5 bullet points max" ++ ", "
  ++ q "top_skills" ++ ": ["
  ++ q "skill1" ++ ", " ++ q "skill2" ++ ", " ++ q "skill3" ++ "], "
  ++ q "improvements" ++ ": ["
  ++ q "actionable_item1" ++ ", " ++ q "actionable_item2" ++ ", "
  ++ q "actionable_item3" ++ ", " ++ q "actionable_item4" ++ ", "
  ++ q "actionable_item5" ++ "]} Resume: ")%string.

Definition TEXT_LIMIT : N := 45000.

(** The f-string: the template followed by [text[:45000]]. *)
Definition prompt (text : pystr) : pystr :=
  py PROMPT_TEMPLATE ++ slice_to TEXT_LIMIT text.

Definition generation_config : GenerationConfig :=
  {| temperature_percent := 30; max_output_tokens := 2000 |}.

Definition ALLOWED_SUFFIXES : list pystr :=
  [py ".pdf"; py ".doc"; py ".docx"; py ".txt"].

Definition MAX_BYTES : Z := 5 * 1024 * 1024.

Definition InvalidFileType : exn :=
  HTTPException 400
    "Invalid file type. Only PDF, DOC, DOCX, and TXT are allowed".

Definition EmptyFile : exn := HTTPException 400 "Empty file received".

Definition FileTooLarge : exn :=
  HTTPException 400 "File size exceeds 5MB limit".

Definition ServiceUnavailable : exn :=
  HTTPException 500 "AI Service unavailable after multiple attempts".

Definition InternalError : exn := HTTPException 500 "Internal server error".

(** The longest delay [time.sleep] takes, in seconds: CPython keeps the
    delay as a signed 64-bit count of nanoseconds. *)
Definition SLEEP_MAX : Z := 9223372036.

Definition SLEEP_OVERFLOW : exn :=
  OverflowError "timestamp too large to convert to C _PyTime_t".

Definition SLEEP_NEGATIVE : exn :=
  ValueError "sleep length must be non-negative".

(** What the property [.text] raises on an answer without a text part. *)
Definition NO_TEXT_PART : exn :=
  ValueError "response.text requires the response to contain a valid Part".

(** [fastapi.UploadFile]: the name, a [str] for every upload handed to
    the handler, and the bytes [await file.read()] returns. *)
Record UploadFile : Type :=
  { filename : pystr;
    contents : list byte }.

(** The success envelope [{"data": response.text}]. *)
Record envelope : Type := { data : pystr }.

Section Endpoint.

Variable ext : externals.

(** [extract_text(io.BytesIO(contents))] *)
Definition extract_text (bs : list byte) : M pystr :=
  fun n => (of_sum (pdf_extract_text ext bs), n, [EvExtractText bs]).

(** [contents.decode('utf-8')] *)
Definition decode_utf8 (bs : list byte) : M pystr :=
  fun n =>
    (match Utf8.decode bs with
     | Some t => Ok t
     | None => Raise UnicodeDecodeError
     end, n, []).

(** [model.generate_content(p, generation_config=cfg)] *)
Definition generate_content (model : GenerativeModel) (p : pystr)
    (cfg : GenerationConfig) : M GenerateContentResponse :=
  fun n =>
    let outcome := model_generate_content ext n model p cfg in
    (of_sum outcome, S n, [EvGenerateContent p outcome]).

(** [time.sleep(seconds)] for an [int]: a negative delay raises
    [ValueError], a delay beyond [SLEEP_MAX] raises [OverflowError], and
    nothing is slept in either case. *)
Definition sleep (seconds : Z) : M unit :=
  fun n =>
    if (seconds <? 0)%Z then (Raise SLEEP_NEGATIVE, n, [])
    else if (seconds <=? SLEEP_MAX)%Z then (Ok tt, n, [EvSleep seconds])
    else (Raise SLEEP_OVERFLOW, n, []).

(** [response.text] *)
Definition read_text (response : GenerateContentResponse) : M pystr :=
  match text response with
  | Some t => ret t
  | None => raise NO_TEXT_PART
  end.

(** The body of [for attempt in range(retries)] over the attempts that
    remain, followed by the [raise] after the loop. *)
Fixpoint retry_loop (model : GenerativeModel) (txt : pystr)
    (attempts : list nat) : M GenerateContentResponse :=
  match attempts with
  | [] => raise ServiceUnavailable
  | attempt :: rest =>
    try_except
      (generate_content model (prompt txt) generation_config)
      (fun _ =>
         sleep (2 ^ Z.of_nat attempt) ;;
         retry_loop model txt rest)
  end.

Definition retry_gemini_request (model : GenerativeModel) (txt : pystr)
    (retries : nat) : M GenerateContentResponse :=
  retry_loop model txt (seq 0 retries).

Definition DEFAULT_RETRIES : nat := 3.

(** The [try] block of [analyze_resume]. *)
Definition analyze_resume_body (file : UploadFile) : M envelope :=
  if negb (endswith_any (lower (filename file)) ALLOWED_SUFFIXES) then
    raise InvalidFileType
  else
    let bs := contents file in
    if (len bs =? 0)%Z then raise EmptyFile
    else if (len bs >? MAX_BYTES)%Z then raise FileTooLarge
    else
      txt <- (if endswith (lower (filename file)) (py ".pdf")
              then extract_text bs
              else decode_utf8 bs) ;;
      let model := {| model_name := MODEL_NAME |} in
      response <- retry_gemini_request model txt DEFAULT_RETRIES ;;
      answer <- read_text response ;;
      ret {| data := answer |}.

(** The two [except] clauses of [analyze_resume], for an instance of
    [Exception]: [try_except] lets nothing else in. *)
Definition analyze_resume_except (e : exn) : M envelope :=
  match e with
  | HTTPException _ _ => raise e
  | _ => raise InternalError
  end.

Definition analyze_resume (file : UploadFile) : M envelope :=
  try_except (analyze_resume_body file) analyze_resume_except.

End Endpoint.

(** What the framework sends for the outcome of a handler: the returned
    dictionary with status 200, the status and detail of an
    [HTTPException], or the server's own answer when any other exception
    leaves the handler. *)
Inductive http_response : Type :=
| JSONData (status : Z) (body_data : pystr)
| JSONDetail (status : Z) (body_detail : string)
| UnhandledServerError.

Definition respond (r : result envelope) : http_response :=
  match r with
  | Ok env => JSONData 200 (data env)
  | Raise (HTTPException code detail) => JSONDetail code detail
  | Raise _ => UnhandledServerError
  end.

Definition status_of (r : http_response) : Z :=
  match r with
  | JSONData s _ => s
  | JSONDetail s _ => s
  | UnhandledServerError => 500
  end.

(** [POST /api/analyze] on a fresh request: the response and the trace. *)
Definition post_analyze (ext : externals) (file : UploadFile)
  : http_response * list event :=
  let '(r, _, tr) := analyze_resume ext file 0 in (respond r, tr).

(** The failure kinds of the specification, as responses. *)
Definition response_of_exn (e : exn) : http_response := respond (Raise e).

Definition is_client_error (r : http_response) : bool :=
  ((400 <=? status_of r) && (status_of r <? 500))%Z.

(** The seconds slept, in order. *)
Fixpoint sleeps (tr : list event) : list Z :=
  match tr with
  | [] => []
  | EvSleep s :: tr' => s :: sleeps tr'
  | _ :: tr' => sleeps tr'
  end.

Definition total_sleep (tr : list event) : Z :=
  fold_right Z.add 0%Z (sleeps tr).

(** The prompts sent to the model, in order. *)
Fixpoint prompts_sent (tr : list event) : list pystr :=
  match tr with
  | [] => []
  | EvGenerateContent p _ :: tr' => p :: prompts_sent tr'
  | _ :: tr' => prompts_sent tr'
  end.

Definition is_extract (e : event) : bool :=
  match e with EvExtractText _ => true | _ => false end.

Definition is_generate (e : event) : bool :=
  match e with EvGenerateContent _ _ => true | _ => false end.

(* ================================================================= *)
(** ** The filename extension, in the specification's words *)

Module Extension.

Definition DOT : N := 46.

(** The text after the last dot of a name, when the name has a dot. *)
Fixpoint extension (name : pystr) : option pystr :=
  match name with
  | [] => None
  | c :: name' =>
    match extension name' with
    | Some e => Some e
    | None => if (c =? DOT)%N then Some name' else None
    end
  end.

Fixpoint pystr_eqb (s t : pystr) : bool :=
  match s, t with
  | [], [] => true
  | c :: s', d :: t' => (c =? d)%N && pystr_eqb s' t'
  | _, _ => false
  end.

Definition ALLOWED_EXTENSIONS : list pystr :=
  [py "pdf"; py "doc"; py "docx"; py "txt"].

(** The extension is one of pdf, doc, docx, txt, compared without regard
    to case. *)
Definition extension_allowed (name : pystr) : bool :=
  match extension name with
  | Some e => existsb (pystr_eqb (lower e)) ALLOWED_EXTENSIONS
  | None => false
  end.

End Extension.

(* ================================================================= *)
(** ** Module initialisation and the health endpoint *)

(** [os.environ] once [load_dotenv()] has run. *)
Definition environ : Type := list (string * string).

(** [os.getenv(key)] *)
Fixpoint getenv (env : environ) (key : string) : option string :=
  match env with
  | [] => None
  | (k, v) :: env' => if String.eqb k key then Some v else getenv env' key
  end.

(** [bool(v)] for [v : Optional[str]]: [None] and the empty string are
    false. *)
Definition truthy (v : option string) : bool :=
  match v with
  | None => false
  | Some s => negb (String.eqb s EmptyString)
  end.

(** The module-level names the handlers read. *)
Record globals : Type := { GEMINI_API_KEY : option string }.

(** [configure_gemini()]: whatever [genai.configure] does, the [except]
    clause only logs. *)
Definition configure_gemini (genai_configure : option string -> unit + string)
    (key : option string) : unit :=
  match genai_configure key with
  | inl _ => tt
  | inr _ => tt
  end.

(** Importing the module: [Raise] aborts the process before it serves. *)
Definition module_init (genai_configure : option string -> unit + string)
    (env : environ) : result globals :=
  let key := getenv env "GEMINI_API_KEY" in
  if negb (truthy key) then Raise (RuntimeError "API key not configured")
  else
    let _ := configure_gemini genai_configure key in
    Ok {| GEMINI_API_KEY := key |}.

Section Health.

(** [psutil] samples and their rendering are floating point: abstract. *)
Variables mem_sample cpu_sample mem_report : Type.
Variable render_memory : mem_sample -> mem_report.

Record health_report : Type :=
  { status : string;
    model : string;
    api_ready : bool;
    memory : mem_report;
    cpu_usage_percent : cpu_sample }.

Definition health_check (g : globals) (mem : mem_sample) (cpu : cpu_sample)
  : health_report :=
  {| status := "healthy";
     model := MODEL_NAME;
     api_ready := truthy (GEMINI_API_KEY g);
     memory := render_memory mem;
     cpu_usage_percent := cpu |}.

(** A request together with what the outside world does during it. *)
Inductive request : Type :=
| PostAnalyze (ext : externals) (file : UploadFile)
| GetHealth (mem : mem_sample) (cpu : cpu_sample).

Inductive reply : Type :=
| AnalyzeReply (r : http_response) (tr : list event)
| HealthReply (h : health_report).

(** One request: no handler assigns a module-level name. *)
Definition handle (g : globals) (rq : request) : globals * reply :=
  match rq with
  | PostAnalyze ext file =>
    let '(r, tr) := post_analyze ext file in (g, AnalyzeReply r tr)
  | GetHealth mem cpu => (g, HealthReply (health_check g mem cpu))
  end.

(** The running service: the requests in order. *)
Fixpoint serve (g : globals) (rqs : list request) : globals * list reply :=
  match rqs with
  | [] => (g, [])
  | rq :: rqs' =>
    let '(g1, rp) := handle g rq in
    let '(g2, rps) := serve g1 rqs' in
    (g2, rp :: rps)
  end.

End Health.

Arguments status {cpu_sample mem_report} h.
Arguments model {cpu_sample mem_report} h.
Arguments api_ready {cpu_sample mem_report} h.
Arguments memory {cpu_sample mem_report} h.
Arguments cpu_usage_percent {cpu_sample mem_report} h.
Arguments health_check {mem_sample cpu_sample mem_report} render_memory g mem cpu.
Arguments PostAnalyze {mem_sample cpu_sample} ext file.
Arguments GetHealth {mem_sample cpu_sample} mem cpu.
Arguments AnalyzeReply {cpu_sample mem_report} r tr.
Arguments HealthReply {cpu_sample mem_report} h.
Arguments handle {mem_sample cpu_sample mem_report} render_memory g rq.
Arguments serve {mem_sample cpu_sample mem_report} render_memory g rqs.

(** Every health reply of a list of replies reports [api_ready]. *)
Definition health_replies_ready {cpu_sample mem_report : Type}
    (rps : list (reply cpu_sample mem_report)) : Prop :=
  Forall (fun rp =>
            match rp with
            | HealthReply h => api_ready h = true
            | AnalyzeReply _ _ => True
            end) rps.

(* ================================================================= *)
(** ** Vocabulary of the statements *)

(** The test of the extraction branch: the lowered name ends in [.pdf]. *)
Definition is_pdf (name : pystr) : bool := endswith (lower name) (py ".pdf").

(** The extension test of the endpoint. *)
Definition has_allowed_suffix (name : pystr) : bool :=
  endswith_any (lower name) ALLOWED_SUFFIXES.

(** The text the extraction step yields for an upload, [None] when the
    step raises. *)
Definition extracted_text (ext : externals) (file : UploadFile)
  : option pystr :=
  if is_pdf (filename file) then
    match pdf_extract_text ext (contents file) with
    | inl t => Some t
    | inr _ => None
    end
  else Utf8.decode (contents file).

(** The events of the extraction step: only the PDF routine is external. *)
Definition extraction_events (file : UploadFile) : list event :=
  if is_pdf (filename file) then [EvExtractText (contents file)] else [].

(** The handle the endpoint builds for every request. *)
Definition THE_MODEL : GenerativeModel := {| model_name := MODEL_NAME |}.

(** What the model answers to the prompt for [txt] when [n] calls came
    before. *)
Definition call_at (ext : externals) (mdl : GenerativeModel) (txt : pystr)
    (n : nat) : GenerateContentResponse + string :=
  model_generate_content ext n mdl (prompt txt) generation_config.

(** What the model answers to the endpoint's prompt for [txt] on its
    [k]-th call of a request (counted from zero). *)
Definition model_outcome (ext : externals) (k : nat) (txt : pystr)
  : GenerateContentResponse + string :=
  call_at ext THE_MODEL txt k.

Definition failed {A} (o : A + string) : bool :=
  match o with
  | inl _ => false
  | inr _ => true
  end.

(** The response to a request whose retry loop, with the three retries
    of the endpoint, ended with [r]. *)
Definition respond_retry (r : result GenerateContentResponse)
  : http_response :=
  match r with
  | Ok x =>
    match text x with
    | Some answer => JSONData 200 answer
    | None => response_of_exn InternalError
    end
  | Raise _ => response_of_exn ServiceUnavailable
  end.

(** The shape of a run of the retry loop with prompt [p] over the attempts
    that remain: each failed call is followed by its sleep, a successful
    call ends the run, running out of attempts raises, and so does a
    sleep that [time.sleep] refuses. *)
Inductive retry_run (p : pystr)
  : list nat -> result GenerateContentResponse -> list event -> Prop :=
| run_exhausted :
    retry_run p [] (Raise ServiceUnavailable) []
| run_success attempt rest r :
    retry_run p (attempt :: rest) (Ok r) [EvGenerateContent p (inl r)]
| run_failure attempt rest msg res tr :
    (2 ^ Z.of_nat attempt <= SLEEP_MAX)%Z ->
    retry_run p rest res tr ->
    retry_run p (attempt :: rest) res
      (EvGenerateContent p (inr msg)
         :: EvSleep (2 ^ Z.of_nat attempt) :: tr)
| run_overflow attempt rest msg :
    (SLEEP_MAX < 2 ^ Z.of_nat attempt)%Z ->
    retry_run p (attempt :: rest) (Raise SLEEP_OVERFLOW)
      [EvGenerateContent p (inr msg)].

(** Concrete collaborators and uploads for the examples. *)
Module Samples.

Definition model_down : externals :=
  {| pdf_extract_text := fun _ => inr "no text layer"%string;
     model_generate_content := fun _ _ _ _ => inr "unavailable"%string |}.

Definition answer : GenerateContentResponse :=
  {| text := Some (py "{}") |}.

(** The model fails twice and then answers. *)
Definition model_third : externals :=
  {| pdf_extract_text := fun _ => inl [];
     model_generate_content :=
       fun n _ _ _ =>
         if (n <? 2)%nat then inr "unavailable"%string else inl answer |}.

Definition bad_txt : UploadFile :=
  {| filename := py "cv.txt"; contents := [xff] |}.

Definition good_txt : UploadFile :=
  {| filename := py "cv.TXT";
     contents := Utf8.bytes_of_string "Hello World" |}.

Definition empty_exe : UploadFile :=
  {| filename := py "cv.exe"; contents := [] |}.

Definition empty_txt : UploadFile :=
  {| filename := py "cv.txt"; contents := [] |}.

Definition scanned_pdf : UploadFile :=
  {| filename := py "scan.pdf"; contents := Utf8.bytes_of_string "%PDF" |}.

(** An upload of [n] bytes under the given name. *)
Definition sized (name : string) (n : Z) : UploadFile :=
  {| filename := py name; contents := repeat x41 (Z.to_nat n) |}.

Definition environ_with_key : environ :=
  [("PATH", "/usr/bin"); ("GEMINI_API_KEY", "secret")]%string.

Definition configure_ok (_ : option string) : unit + string := inl tt.

End Samples.

(* ================================================================= *)
(** ** Vocabulary of the further properties *)

(** The three validation rules of the endpoint, all passed. *)
Definition accepted (file : UploadFile) : bool :=
  has_allowed_suffix (filename file)
  && negb (len (contents file) =? 0)%Z
  && negb (len (contents file) >? MAX_BYTES)%Z.

(** The answer of the first call that does not fail, among [attempts]
    calls of which the first is made when [n] calls came before. *)
Fixpoint first_answer (ext : externals) (mdl : GenerativeModel)
    (txt : pystr) (n attempts : nat) : option GenerateContentResponse :=
  match attempts with
  | O => None
  | S attempts' =>
    match call_at ext mdl txt n with
    | inl r => Some r
    | inr _ => first_answer ext mdl txt (S n) attempts'
    end
  end.

(** The attempts whose sleep [time.sleep] accepts are attempts 0 to 33:
    [2^33] seconds is within [SLEEP_MAX] and [2^34] is beyond it. *)
Definition SLEEPING_ATTEMPTS : nat := 34.

(** The result of the retry routine, read off the calls: the first
    answer among the calls the routine can reach (attempt 34 is the last
    one it reaches, since a failure there ends in the refused sleep);
    when none answers, [ServiceUnavailable] if the retries run out within
    the sleeping attempts and the [OverflowError] of [time.sleep]
    otherwise. *)
Definition first_answer_or_failure (ext : externals) (mdl : GenerativeModel)
    (txt : pystr) (n retries : nat) : result GenerateContentResponse :=
  match first_answer ext mdl txt n (Nat.min retries (S SLEEPING_ATTEMPTS))
  with
  | Some r => Ok r
  | None =>
    if (retries <=? SLEEPING_ATTEMPTS)%nat then Raise ServiceUnavailable
    else Raise SLEEP_OVERFLOW
  end.

(** The events of [k] failed attempts in a row, the first of them being
    attempt number [attempt], made when [n] calls came before: each call
    with the sleep that follows it. *)
Fixpoint failure_events (ext : externals) (mdl : GenerativeModel)
    (txt : pystr) (attempt n k : nat) : list event :=
  match k with
  | O => []
  | S k' =>
    EvGenerateContent (prompt txt) (call_at ext mdl txt n)
      :: EvSleep (2 ^ Z.of_nat attempt)
      :: failure_events ext mdl txt (S attempt) (S n) k'
  end.

(** The bytes are all ASCII. *)
Definition ascii_only (bs : list byte) : bool :=
  forallb (fun b => (Byte.to_N b <? 0x80)%N) bs.

(** Two outcomes of a collaborator that differ at most in the message of
    the failure. *)
Definition same_outcome {A} (o1 o2 : A + string) : Prop :=
  match o1, o2 with
  | inl a1, inl a2 => a1 = a2
  | inr _, inr _ => True
  | _, _ => False
  end.

(** Two worlds whose collaborators fail on the same calls and return the
    same values, with failure messages of their own. *)
Definition same_up_to_messages (e1 e2 : externals) : Prop :=
  (forall bs, same_outcome (pdf_extract_text e1 bs) (pdf_extract_text e2 bs))
  /\ (forall n mdl p cfg,
        same_outcome (model_generate_content e1 n mdl p cfg)
                     (model_generate_content e2 n mdl p cfg)).

(** The responses the endpoint can give. *)
Definition known_response (r : http_response) : Prop :=
  (exists d, r = JSONData 200 d)
  \/ r = response_of_exn InvalidFileType
  \/ r = response_of_exn EmptyFile
  \/ r = response_of_exn FileTooLarge
  \/ r = response_of_exn InternalError
  \/ r = response_of_exn ServiceUnavailable.

Module MoreSamples.

(** The collaborators of [Samples.model_down], failing with other
    messages. *)
Definition model_down_verbose : externals :=
  {| pdf_extract_text := fun _ => inr "PDFSyntaxError at byte 17"%string;
     model_generate_content :=
       fun _ _ _ _ => inr "429 quota exceeded for key secret"%string |}.

(** The model answers at once. *)
Definition model_up : externals :=
  {| pdf_extract_text := fun _ => inl (py "Jane Doe");
     model_generate_content := fun _ _ _ _ => inl Samples.answer |}.

(** An answer without a text part: a candidate the service blocked. *)
Definition no_text : GenerateContentResponse := {| text := None |}.

(** The model fails once and then returns an answer without text. *)
Definition model_blocked : externals :=
  {| pdf_extract_text := fun _ => inl (py "Jane Doe");
     model_generate_content :=
       fun n _ _ _ =>
         if (n <? 1)%nat then inr "unavailable"%string else inl no_text |}.

Definition pdf_upload : UploadFile :=
  {| filename := py "Resume.PDF";
     contents := Utf8.bytes_of_string "%PDF-1.7" |}.

End MoreSamples.

(* ================================================================= *)
(** * Properties *)

(** ** Sanity checks of the embedding *)

Example decode_hello :
  Utf8.decode (Utf8.bytes_of_string "Hello World") = Some (py "Hello World").
Proof. reflexivity. Qed.

Example decode_euro :
  Utf8.decode [xe2; x82; xac] = Some [0x20AC%N].
Proof. reflexivity. Qed.

Example decode_surrogate_rejected :
  Utf8.decode [xed; xa0; x80] = None.
Proof. reflexivity. Qed.

Example decode_overlong_rejected :
  Utf8.decode [xc0; xaf] = None.
Proof. reflexivity. Qed.

Example endswith_upper :
  endswith (lower (py "Resume.PDF")) (py ".pdf") = true.
Proof. reflexivity. Qed.

Example extension_of_dotted_name :
  Extension.extension (py "cv.final.DocX") = Some (py "DocX")
  /\ Extension.extension_allowed (py "cv.final.DocX") = true
  /\ Extension.extension_allowed (py "pdf") = false.
Proof. repeat split. Qed.

Example template_length : List.length (py PROMPT_TEMPLATE) = 549%nat.
Proof. reflexivity. Qed.

Example hello_world_request :
  post_analyze Samples.model_third Samples.good_txt
  = (JSONData 200 (py "{}"),
     [EvGenerateContent (prompt (py "Hello World"))
        (inr "unavailable"%string);
      EvSleep 1;
      EvGenerateContent (prompt (py "Hello World"))
        (inr "unavailable"%string);
      EvSleep 2;
      EvGenerateContent (prompt (py "Hello World")) (inl Samples.answer)]).
Proof. reflexivity. Qed.

Example failing_pdf_request :
  post_analyze Samples.model_down Samples.scanned_pdf
  = (JSONDetail 500 "Internal server error",
     [EvExtractText (contents Samples.scanned_pdf)]).
Proof. reflexivity. Qed.

Example startup_without_key :
  module_init Samples.configure_ok [("PATH", "/usr/bin")]%string
  = Raise (RuntimeError "API key not configured")
  /\ module_init Samples.configure_ok
       [("GEMINI_API_KEY", EmptyString)]%string
     = Raise (RuntimeError "API key not configured").
Proof. split; reflexivity. Qed.

(* ================================================================= *)
(** ** Suffixes and extensions *)

Section Suffix.

Lemma startswith_app (p t : pystr) : startswith (p ++ t) p = true.
Proof.
  induction p as [|c p IH]; simpl; [now destruct t|].
  now rewrite N.eqb_refl.
Qed.

Lemma startswith_inv (p s : pystr) :
  startswith s p = true -> exists t, s = p ++ t.
Proof.
  revert s; induction p as [|c p IH]; intros s H.
  - now exists s.
  - destruct s as [|d s]; simpl in H; [discriminate|].
    apply andb_true_iff in H as [Hd Hs].
    apply N.eqb_eq in Hd; subst d.
    destruct (IH _ Hs) as [t ->].
    now exists t.
Qed.

Lemma endswith_true (s suffix : pystr) :
  endswith s suffix = true <-> exists t, s = t ++ suffix.
Proof.
  unfold endswith; split.
  - intros H. apply startswith_inv in H as [t Ht].
    exists (rev t).
    apply (f_equal (@rev N)) in Ht.
    now rewrite rev_involutive, rev_app_distr, rev_involutive in Ht.
  - intros [t ->]. rewrite rev_app_distr. apply startswith_app.
Qed.

End Suffix.

Module ExtensionFacts.
Import Extension.

Lemma extension_none (s : pystr) : extension s = None <-> ~ In DOT s.
Proof.
  induction s as [|c s IH]; simpl.
  - tauto.
  - destruct (extension s) as [e|].
    + split; [discriminate|].
      intros H. exfalso. destruct IH as [_ IH].
      assert (Hs : ~ In DOT s) by tauto.
      specialize (IH Hs). discriminate.
    + destruct (N.eqb_spec c DOT) as [->|Hc].
      * split; [discriminate|]. intros H; exfalso; apply H; now left.
      * split; [|reflexivity]. intros _ [Hd|Hd]; [congruence|].
        now apply IH.
Qed.

Lemma extension_app (t e : pystr) :
  ~ In DOT e -> extension (t ++ DOT :: e) = Some e.
Proof.
  intros He. induction t as [|c t IH]; simpl.
  - apply extension_none in He. now rewrite He.
  - now rewrite IH.
Qed.

Lemma extension_some (s e : pystr) :
  extension s = Some e -> (exists t, s = t ++ DOT :: e) /\ ~ In DOT e.
Proof.
  revert e; induction s as [|c s IH]; simpl; intros e H; [discriminate|].
  destruct (extension s) as [e0|] eqn:Hs.
  - injection H as <-. destruct (IH _ eq_refl) as [[t ->] He].
    split; [now exists (c :: t)|assumption].
  - destruct (N.eqb_spec c DOT) as [->|Hc]; [|discriminate].
    injection H as <-. split; [now exists []|].
    now apply extension_none.
Qed.

Lemma pystr_eqb_eq (s t : pystr) : pystr_eqb s t = true <-> s = t.
Proof.
  revert t; induction s as [|c s IH]; intros [|d t]; simpl;
    try (split; [discriminate|congruence]); [tauto|].
  rewrite andb_true_iff, N.eqb_eq, IH.
  split; [intros [-> ->]; reflexivity|intros [= -> ->]; tauto].
Qed.

Lemma lower_char_dot (c : N) : lower_char c = DOT <-> c = DOT.
Proof.
  unfold lower_char, DOT.
  destruct (N.leb_spec 65 c), (N.leb_spec c 90); simpl; lia.
Qed.

Lemma lower_no_dot (s : pystr) : ~ In DOT s -> ~ In DOT (lower s).
Proof.
  unfold lower. intros H Hin. apply in_map_iff in Hin as [c [Hc Hin]].
  apply (proj1 (lower_char_dot c)) in Hc. now subst c.
Qed.

(** Lowering a name lowers its extension. *)
Lemma extension_lower (s : pystr) :
  extension (lower s) = option_map lower (extension s).
Proof.
  destruct (extension s) as [e|] eqn:Hs; simpl.
  - apply extension_some in Hs as [[t ->] He].
    unfold lower. rewrite map_app. simpl.
    replace (lower_char DOT) with DOT by reflexivity.
    apply extension_app. now apply lower_no_dot.
  - apply extension_none. apply lower_no_dot. now apply extension_none.
Qed.

(** Ending in a dot followed by a dot-free word is having that word as
    extension. *)
Lemma endswith_dot (s e : pystr) :
  ~ In DOT e ->
  endswith s (DOT :: e) =
  match extension s with
  | Some x => pystr_eqb x e
  | None => false
  end.
Proof.
  intros He. apply eq_true_iff_eq. rewrite endswith_true. split.
  - intros [t ->]. rewrite extension_app by assumption.
    now apply pystr_eqb_eq.
  - destruct (extension s) as [x|] eqn:Hs; [|discriminate].
    intros Hx. apply pystr_eqb_eq in Hx. subst x.
    now apply extension_some in Hs as [Ht _].
Qed.

Lemma allowed_extensions_dot_free :
  Forall (fun e => ~ In DOT e) ALLOWED_EXTENSIONS.
Proof.
  repeat constructor; vm_compute; intuition discriminate.
Qed.

Lemma allowed_suffixes_extensions :
  ALLOWED_SUFFIXES = map (cons DOT) ALLOWED_EXTENSIONS.
Proof. reflexivity. Qed.

(** The endpoint's suffix test decides whether the extension, in the
    specification's sense, is an allowed one. *)
Lemma has_allowed_suffix_extension (name : pystr) :
  has_allowed_suffix name = extension_allowed name.
Proof.
  unfold has_allowed_suffix, extension_allowed, endswith_any.
  rewrite allowed_suffixes_extensions.
  pose proof allowed_extensions_dot_free as Hfree.
  induction ALLOWED_EXTENSIONS as [|e es IH]; simpl.
  - now destruct (extension name).
  - inversion Hfree as [|? ? He Hes]; subst.
    rewrite (IH Hes), (endswith_dot _ _ He), extension_lower.
    now destruct (extension name).
Qed.

End ExtensionFacts.

(* ================================================================= *)
(** ** Decoding *)

Module Utf8Facts.
Import Utf8.

Lemma option_map_cons_nonempty (c : N) (o : option pystr) (t : pystr) :
  option_map (cons c) o = Some t -> t <> [].
Proof. destruct o; simpl; intros [= <-]; discriminate. Qed.

(** Decoding consumes at least one byte per code point and never drops a
    byte: the text of a non-empty byte string is non-empty. *)
Lemma decode_nonempty (bs : list byte) (t : pystr) :
  bs <> [] -> decode bs = Some t -> t <> [].
Proof.
  destruct bs as [|b0 r0]; [congruence|]. intros _.
  cbn [decode].
  destruct (Byte.to_N b0 <? 0x80)%N;
    [apply option_map_cons_nonempty|].
  destruct (between 0xC2 0xDF (Byte.to_N b0)).
  { destruct r0 as [|b1 r1]; [discriminate|].
    destruct (is_cont (Byte.to_N b1)); [|discriminate].
    apply option_map_cons_nonempty. }
  destruct (between 0xE0 0xEF (Byte.to_N b0)).
  { destruct r0 as [|b1 [|b2 r2]]; try discriminate.
    destruct (second3 _ _ && is_cont _); [|discriminate].
    apply option_map_cons_nonempty. }
  destruct (between 0xF0 0xF4 (Byte.to_N b0)); [|discriminate].
  destruct r0 as [|b1 [|b2 [|b3 r3]]]; try discriminate.
  destruct (second4 _ _ && is_cont _ && is_cont _); [|discriminate].
  apply option_map_cons_nonempty.
Qed.

Lemma decode_empty : decode [] = Some [].
Proof. reflexivity. Qed.

End Utf8Facts.

(* ================================================================= *)
(** ** The retry loop *)

Lemma pow2_nonneg (attempt : nat) : (0 <= 2 ^ Z.of_nat attempt)%Z.
Proof. apply Z.pow_nonneg. lia. Qed.

(** A delay [time.sleep] accepts is slept. *)
Lemma sleep_within (seconds : Z) (n : nat) :
  (0 <= seconds)%Z -> (seconds <= SLEEP_MAX)%Z ->
  sleep seconds n = (Ok tt, n, [EvSleep seconds]).
Proof.
  intros Hpos Hmax. unfold sleep.
  destruct (Z.ltb_spec seconds 0); [lia|].
  destruct (Z.leb_spec seconds SLEEP_MAX); [reflexivity|lia].
Qed.

(** A delay beyond the limit raises and sleeps nothing. *)
Lemma sleep_beyond (seconds : Z) (n : nat) :
  (SLEEP_MAX < seconds)%Z ->
  sleep seconds n = (Raise SLEEP_OVERFLOW, n, []).
Proof.
  intros Hmax. unfold sleep.
  assert (0 < SLEEP_MAX)%Z by reflexivity.
  destruct (Z.ltb_spec seconds 0); [lia|].
  destruct (Z.leb_spec seconds SLEEP_MAX); [lia|reflexivity].
Qed.

Ltac short_sleep := vm_compute; discriminate.

Section RetryFacts.

Variable ext : externals.
Variable mdl : GenerativeModel.
Variable txt : pystr.

Local Abbreviation call_here := (call_at ext mdl txt).

Lemma retry_loop_nil (n : nat) :
  retry_loop ext mdl txt [] n = (Raise ServiceUnavailable, n, []).
Proof. reflexivity. Qed.

Lemma retry_loop_ok (attempt : nat) (rest : list nat) (n : nat)
    (r : GenerateContentResponse) :
  call_here n = inl r ->
  retry_loop ext mdl txt (attempt :: rest) n =
  (Ok r, S n, [EvGenerateContent (prompt txt) (inl r)]).
Proof.
  unfold call_at. intros H.
  cbn [retry_loop]. unfold try_except, generate_content.
  now rewrite H.
Qed.

Lemma retry_loop_fail (attempt : nat) (rest : list nat) (n : nat)
    (msg : string) :
  call_here n = inr msg ->
  (2 ^ Z.of_nat attempt <= SLEEP_MAX)%Z ->
  retry_loop ext mdl txt (attempt :: rest) n =
  let '(r, n', tr) := retry_loop ext mdl txt rest (S n) in
  (r, n',
   EvGenerateContent (prompt txt) (inr msg)
     :: EvSleep (2 ^ Z.of_nat attempt) :: tr).
Proof.
  unfold call_at. intros H Hsleep.
  cbn [retry_loop]. unfold try_except, generate_content.
  rewrite H. cbn [of_sum is_Exception]. unfold bind.
  rewrite (sleep_within _ (S n) (pow2_nonneg attempt) Hsleep).
  now destruct (retry_loop ext mdl txt rest (S n)) as [[r n'] tr].
Qed.

(** A failed call whose sleep [time.sleep] refuses ends the run. *)
Lemma retry_loop_overflow (attempt : nat) (rest : list nat) (n : nat)
    (msg : string) :
  call_here n = inr msg ->
  (SLEEP_MAX < 2 ^ Z.of_nat attempt)%Z ->
  retry_loop ext mdl txt (attempt :: rest) n =
  (Raise SLEEP_OVERFLOW, S n, [EvGenerateContent (prompt txt) (inr msg)]).
Proof.
  unfold call_at. intros H Hsleep.
  cbn [retry_loop]. unfold try_except, generate_content.
  rewrite H. cbn [of_sum is_Exception]. unfold bind.
  now rewrite (sleep_beyond _ (S n) Hsleep).
Qed.

(** Every run of the loop has the shape [retry_run]. *)
Lemma retry_loop_run (attempts : list nat) (n : nat) :
  retry_run (prompt txt) attempts
    (fst (fst (retry_loop ext mdl txt attempts n)))
    (snd (retry_loop ext mdl txt attempts n)).
Proof.
  revert n; induction attempts as [|attempt rest IH]; intros n.
  - constructor.
  - destruct (call_here n) as [r|msg] eqn:Hcall.
    + rewrite (retry_loop_ok attempt rest n r Hcall). constructor.
    + destruct (Z_le_gt_dec (2 ^ Z.of_nat attempt) SLEEP_MAX) as [Hs|Hs].
      * rewrite (retry_loop_fail attempt rest n msg Hcall Hs).
        specialize (IH (S n)).
        destruct (retry_loop ext mdl txt rest (S n)) as [[r n'] tr].
        now constructor.
      * rewrite (retry_loop_overflow attempt rest n msg Hcall)
          by lia.
        constructor. lia.
Qed.

(** The loop makes one call per attempt it starts. *)
Lemma retry_loop_calls (attempts : list nat) (n : nat) :
  snd (fst (retry_loop ext mdl txt attempts n)) =
  (n + List.length (prompts_sent (snd (retry_loop ext mdl txt attempts n))))%nat.
Proof.
  revert n; induction attempts as [|attempt rest IH]; intros n.
  - simpl. lia.
  - destruct (call_here n) as [r|msg] eqn:Hcall.
    + rewrite (retry_loop_ok attempt rest n r Hcall). simpl. lia.
    + destruct (Z_le_gt_dec (2 ^ Z.of_nat attempt) SLEEP_MAX) as [Hs|Hs].
      * rewrite (retry_loop_fail attempt rest n msg Hcall Hs).
        specialize (IH (S n)).
        destruct (retry_loop ext mdl txt rest (S n)) as [[r n'] tr].
        simpl in *. lia.
      * rewrite (retry_loop_overflow attempt rest n msg Hcall)
          by lia.
        simpl. lia.
Qed.

(** Three failures in a row: the whole run. *)
Lemma retry_three_failures (n : nat) :
  failed (call_here n) = true ->
  failed (call_here (S n)) = true ->
  failed (call_here (S (S n))) = true ->
  retry_gemini_request ext mdl txt 3 n =
  (Raise ServiceUnavailable, S (S (S n)),
   [EvGenerateContent (prompt txt) (call_here n); EvSleep 1;
    EvGenerateContent (prompt txt) (call_here (S n)); EvSleep 2;
    EvGenerateContent (prompt txt) (call_here (S (S n))); EvSleep 4]).
Proof.
  intros H0 H1 H2. unfold retry_gemini_request. cbn [seq].
  destruct (call_here n) as [?|m0] eqn:E0; [discriminate|].
  destruct (call_here (S n)) as [?|m1] eqn:E1; [discriminate|].
  destruct (call_here (S (S n))) as [?|m2] eqn:E2; [discriminate|].
  rewrite (retry_loop_fail 0 _ n m0 E0) by short_sleep.
  rewrite (retry_loop_fail 1 _ (S n) m1 E1) by short_sleep.
  rewrite (retry_loop_fail 2 _ (S (S n)) m2 E2) by short_sleep.
  now rewrite retry_loop_nil.
Qed.


End RetryFacts.

Section RunFacts.

Variable p : pystr.

Lemma retry_run_prompts attempts res tr :
  retry_run p attempts res tr -> Forall (eq p) (prompts_sent tr).
Proof.
  induction 1; simpl; repeat constructor; assumption.
Qed.

(** The loop raises [ServiceUnavailable], or what [time.sleep] raised. *)
Lemma retry_run_raises_any attempts e tr :
  retry_run p attempts (Raise e) tr ->
  e = ServiceUnavailable \/ e = SLEEP_OVERFLOW.
Proof.
  intros H. remember (Raise e) as res eqn:Hres.
  induction H; [left; congruence|discriminate|auto|right; congruence].
Qed.

(** Over attempts whose sleeps [time.sleep] accepts, the loop raises
    nothing but [ServiceUnavailable]. *)
Lemma retry_run_raises attempts e tr :
  retry_run p attempts (Raise e) tr ->
  Forall (fun a => 2 ^ Z.of_nat a <= SLEEP_MAX)%Z attempts ->
  e = ServiceUnavailable.
Proof.
  intros H. remember (Raise e) as res eqn:Hres.
  induction H as [|attempt rest r0|attempt rest msg res tr Hs Hrun IH
                  |attempt rest msg Hs]; intros Hall.
  - congruence.
  - discriminate.
  - inversion Hall; subst. auto.
  - inversion Hall; subst. lia.
Qed.

(** A successful call is the last event of its run, and its answer is the
    result of the run. *)
Lemma retry_run_success_last attempts res tr :
  retry_run p attempts res tr ->
  forall pre q r post,
    tr = pre ++ EvGenerateContent q (inl r) :: post ->
    post = [] /\ res = Ok r /\ q = p.
Proof.
  induction 1 as [|attempt rest r0|attempt rest msg res tr Hs Hrun IH
                  |attempt rest msg Hs];
    intros pre q r post Heq.
  - now destruct pre.
  - destruct pre as [|e pre]; simpl in Heq.
    + injection Heq as -> -> <-. auto.
    + injection Heq as _ Heq. now destruct pre.
  - destruct pre as [|e1 [|e2 pre]]; simpl in Heq; try discriminate.
    injection Heq as _ _ Heq. eauto.
  - destruct pre as [|e pre]; simpl in Heq; [discriminate|].
    injection Heq as _ Heq. now destruct pre.
Qed.

(** The sleeps of a run are the powers of two of the attempts that
    failed, in order. *)
Lemma retry_run_sleeps attempts res tr :
  retry_run p attempts res tr ->
  exists k, sleeps tr = map (fun a => 2 ^ Z.of_nat a)%Z (firstn k attempts).
Proof.
  induction 1 as [|attempt rest r0|attempt rest msg res tr Hs Hrun [k IH]
                  |attempt rest msg Hs].
  - now exists 0%nat.
  - now exists 0%nat.
  - exists (S k). simpl. now rewrite IH.
  - now exists 0%nat.
Qed.

End RunFacts.

(* ================================================================= *)
(** ** The endpoint *)

(** A [try] block that starts with a step: the handler sees what the
    step raises, and what the rest raises. *)
Lemma try_except_bind {A B} (m : M A) (k : A -> M B) (h : exn -> M B)
    (n : nat) :
  try_except (x <- m ;; k x) h n
  = match m n with
    | (Ok a, n1, t1) =>
      let '(r, n2, t2) := try_except (k a) h n1 in (r, n2, t1 ++ t2)
    | (Raise e, n1, t1) =>
      if is_Exception e then
        let '(r, n2, t2) := h e n1 in (r, n2, t1 ++ t2)
      else (Raise e, n1, t1)
    end.
Proof.
  unfold try_except, bind.
  destruct (m n) as [[[a|e] n1] t1]; [|reflexivity].
  destruct (k a n1) as [[[b|e] n2] t2]; [reflexivity|].
  destruct (is_Exception e); [|reflexivity].
  destruct (h e n2) as [[r n3] t3]. now rewrite app_assoc.
Qed.

Lemma endpoint_sleeps_short :
  Forall (fun a => 2 ^ Z.of_nat a <= SLEEP_MAX)%Z (seq 0 DEFAULT_RETRIES).
Proof. repeat constructor; short_sleep. Qed.

Section EndpointFacts.

Variable ext : externals.
Variable file : UploadFile.

Lemma MAX_BYTES_value : MAX_BYTES = 5242880%Z.
Proof. reflexivity. Qed.

(** The extraction step: its events, and its result up to the exception
    raised, which the endpoint turns into [InternalError] in any case. *)
Lemma extraction_step (n : nat) :
  exists res,
    (if is_pdf (filename file)
     then extract_text ext (contents file)
     else decode_utf8 (contents file)) n
    = (res, n, extraction_events file)
    /\ match extracted_text ext file with
       | Some t => res = Ok t
       | None => exists e, res = Raise e
                           /\ is_Exception e = true
                           /\ analyze_resume_except e = raise InternalError
       end.
Proof.
  unfold extracted_text, extraction_events.
  destruct (is_pdf (filename file)).
  - unfold extract_text.
    destruct (pdf_extract_text ext (contents file)) as [t|msg];
      eexists; (split; [reflexivity|]); simpl; eauto.
  - unfold decode_utf8.
    destruct (Utf8.decode (contents file)) as [t|];
      eexists; (split; [reflexivity|]); simpl; eauto.
Qed.

(** The retry loop of a request and the reading of the answer, seen from
    the handlers of the endpoint. *)
Lemma retry_through_handlers (txt : pystr) (n : nat) :
  try_except
    (response <- retry_gemini_request ext THE_MODEL txt DEFAULT_RETRIES ;;
     answer <- read_text response ;;
     ret {| data := answer |})
    analyze_resume_except n
  = let '(r, n', tr) :=
      retry_gemini_request ext THE_MODEL txt DEFAULT_RETRIES n in
    (match r with
     | Ok x =>
       match text x with
       | Some answer => Ok {| data := answer |}
       | None => Raise InternalError
       end
     | Raise _ => Raise ServiceUnavailable
     end, n', tr).
Proof.
  rewrite try_except_bind. unfold retry_gemini_request.
  pose proof (retry_loop_run ext THE_MODEL txt (seq 0 DEFAULT_RETRIES) n)
    as Hrun.
  destruct (retry_loop ext THE_MODEL txt (seq 0 DEFAULT_RETRIES) n)
    as [[[x|e] n'] tr]; cbn [fst snd] in Hrun.
  - unfold try_except, bind, read_text.
    destruct (text x) as [answer|]; simpl; now rewrite !app_nil_r.
  - apply retry_run_raises in Hrun; [|exact endpoint_sleeps_short].
    subst e. simpl. now rewrite app_nil_r.
Qed.

(** The endpoint, case by case: the three validation rules in order, then
    the extraction, then the retry loop. *)
Lemma post_analyze_eq :
  post_analyze ext file =
  if negb (Extension.extension_allowed (filename file)) then
    (response_of_exn InvalidFileType, [])
  else if (len (contents file) =? 0)%Z then
    (response_of_exn EmptyFile, [])
  else if (len (contents file) >? MAX_BYTES)%Z then
    (response_of_exn FileTooLarge, [])
  else
    match extracted_text ext file with
    | None => (response_of_exn InternalError, extraction_events file)
    | Some txt =>
      let '(r, _, tr) :=
        retry_gemini_request ext THE_MODEL txt DEFAULT_RETRIES 0 in
      (respond_retry r, extraction_events file ++ tr)
    end.
Proof.
  rewrite <- ExtensionFacts.has_allowed_suffix_extension.
  unfold post_analyze, analyze_resume, analyze_resume_body,
    has_allowed_suffix.
  destruct (endswith_any (lower (filename file)) ALLOWED_SUFFIXES);
    [|reflexivity].
  cbn [negb].
  destruct (len (contents file) =? 0)%Z; [reflexivity|].
  destruct (len (contents file) >? MAX_BYTES)%Z; [reflexivity|].
  fold (is_pdf (filename file)). fold THE_MODEL.
  destruct (extraction_step 0) as [res [Hstep Hres]].
  rewrite try_except_bind, Hstep.
  destruct (extracted_text ext file) as [txt|].
  - subst res. rewrite retry_through_handlers.
    destruct (retry_gemini_request ext THE_MODEL txt DEFAULT_RETRIES 0)
      as [[[x|e] n'] tr]; cbn [respond_retry]; [|reflexivity].
    now destruct (text x).
  - destruct Hres as [e [-> [Hexc He]]]. rewrite Hexc, He. simpl.
    now rewrite app_nil_r.
Qed.

End EndpointFacts.

(* ================================================================= *)
(** ** Validation *)

Lemma sized_len (name : string) (n : Z) :
  (0 <= n)%Z -> len (contents (Samples.sized name n)) = n.
Proof.
  intros Hn. unfold len, Samples.sized. cbn [contents].
  rewrite repeat_length. now apply Z2Nat.id.
Qed.

Lemma sized_filename (name : string) (n : Z) :
  filename (Samples.sized name n) = py name.
Proof. reflexivity. Qed.

(** C6: an upload whose extension, compared without regard to case, is
    none of pdf, doc, docx, txt is answered with [InvalidFileType]
    (status 400), and the request emits no event at all: neither the
    extraction routine nor the model is invoked. *)
Theorem disallowed_extension_rejected (ext : externals) (file : UploadFile) :
  Extension.extension_allowed (filename file) = false ->
  post_analyze ext file = (response_of_exn InvalidFileType, [])
  /\ status_of (fst (post_analyze ext file)) = 400%Z
  /\ existsb is_extract (snd (post_analyze ext file)) = false
  /\ existsb is_generate (snd (post_analyze ext file)) = false.
Proof.
  intros Hext. rewrite post_analyze_eq, Hext. cbn [negb].
  repeat split.
Qed.

Lemma disallowed_extension_rejected_witness :
  Extension.extension_allowed (filename Samples.empty_exe) = false
  /\ post_analyze Samples.model_third Samples.empty_exe
     = (response_of_exn InvalidFileType, []).
Proof.
  split; [reflexivity|].
  apply (disallowed_extension_rejected Samples.model_third Samples.empty_exe).
  reflexivity.
Defined.

(** C2, as the code has it: an upload of zero bytes whose extension is an
    allowed one is answered with [EmptyFile], whichever of the allowed
    extensions it has, and nothing is extracted or sent to the model. *)
Theorem empty_upload_rejected (ext : externals) (file : UploadFile) :
  Extension.extension_allowed (filename file) = true ->
  len (contents file) = 0%Z ->
  post_analyze ext file = (response_of_exn EmptyFile, []).
Proof.
  intros Hext Hlen. now rewrite post_analyze_eq, Hext, Hlen.
Qed.

Lemma empty_upload_rejected_witness :
  Extension.extension_allowed (filename Samples.empty_txt) = true
  /\ len (contents Samples.empty_txt) = 0%Z
  /\ post_analyze Samples.model_down Samples.empty_txt
     = (response_of_exn EmptyFile, []).
Proof.
  split; [reflexivity|]. split; [reflexivity|].
  apply (empty_upload_rejected Samples.model_down Samples.empty_txt);
    reflexivity.
Defined.

(** C2 fails as stated: an empty upload named [cv.exe] is answered with
    [InvalidFileType], not with [EmptyFile]. *)
Lemma empty_upload_wrong_extension :
  len (contents Samples.empty_exe) = 0%Z
  /\ fst (post_analyze Samples.model_down Samples.empty_exe)
     = response_of_exn InvalidFileType
  /\ fst (post_analyze Samples.model_down Samples.empty_exe)
     <> response_of_exn EmptyFile.
Proof.
  split; [reflexivity|]. split; [reflexivity|]. discriminate.
Qed.

(** C7: with an allowed extension, an upload of exactly 5,242,880 bytes is
    not rejected by validation (the response is a success or a 500-class
    failure of a later step, never a 400), an upload of 5,242,881 bytes or
    more is answered with [FileTooLarge]; and the size is looked at only
    after the extension: with a disallowed extension an upload of that
    size is answered with [InvalidFileType].  (The non-empty check comes
    between the two; no upload fails both it and the size check.) *)
Theorem size_limit (ext : externals) (file : UploadFile) :
  (Extension.extension_allowed (filename file) = true ->
   len (contents file) = 5242880%Z ->
   fst (post_analyze ext file) <> response_of_exn FileTooLarge
   /\ is_client_error (fst (post_analyze ext file)) = false)
  /\ (Extension.extension_allowed (filename file) = true ->
      (5242881 <= len (contents file))%Z ->
      post_analyze ext file = (response_of_exn FileTooLarge, []))
  /\ (Extension.extension_allowed (filename file) = false ->
      (5242881 <= len (contents file))%Z ->
      post_analyze ext file = (response_of_exn InvalidFileType, [])).
Proof.
  rewrite post_analyze_eq, MAX_BYTES_value.
  split; [|split]; intros Hext Hlen; rewrite Hext; cbn [negb].
  - rewrite Hlen. cbn [Z.eqb Z.gtb Z.compare Pos.compare Pos.compare_cont].
    destruct (extracted_text ext file) as [txt|];
      [|split; [discriminate|reflexivity]].
    destruct (retry_gemini_request ext THE_MODEL txt DEFAULT_RETRIES 0)
      as [[[x|e] n'] tr]; cbn [fst respond_retry];
      [destruct (text x)|]; (split; [discriminate|reflexivity]).
  - destruct (Z.eqb_spec (len (contents file)) 0); [lia|].
    destruct (Z.gtb_spec (len (contents file)) 5242880); [reflexivity|lia].
  - reflexivity.
Qed.

Lemma size_limit_witness :
  (Extension.extension_allowed
     (filename (Samples.sized "cv.docx" 5242880)) = true
   /\ len (contents (Samples.sized "cv.docx" 5242880)) = 5242880%Z
   /\ is_client_error
        (fst (post_analyze Samples.model_down
                (Samples.sized "cv.docx" 5242880))) = false)
  /\ ((5242881 <= len (contents (Samples.sized "cv.docx" 5242881)))%Z
      /\ post_analyze Samples.model_down (Samples.sized "cv.docx" 5242881)
         = (response_of_exn FileTooLarge, []))
  /\ (Extension.extension_allowed
        (filename (Samples.sized "cv.exe" 5242881)) = false
      /\ post_analyze Samples.model_down (Samples.sized "cv.exe" 5242881)
         = (response_of_exn InvalidFileType, [])).
Proof.
  assert (Hdocx : forall n,
             Extension.extension_allowed
               (filename (Samples.sized "cv.docx" n)) = true)
    by (intros n; rewrite sized_filename; reflexivity).
  assert (Hexe : forall n,
             Extension.extension_allowed
               (filename (Samples.sized "cv.exe" n)) = false)
    by (intros n; rewrite sized_filename; reflexivity).
  split; [|split].
  - split; [apply Hdocx|]. split; [apply sized_len; lia|].
    apply (size_limit Samples.model_down (Samples.sized "cv.docx" 5242880));
      [apply Hdocx|apply sized_len; lia].
  - split; [rewrite sized_len; lia|].
    apply (size_limit Samples.model_down (Samples.sized "cv.docx" 5242881));
      [apply Hdocx|rewrite sized_len; lia].
  - split; [apply Hexe|].
    apply (size_limit Samples.model_down (Samples.sized "cv.exe" 5242881));
      [apply Hexe|rewrite sized_len; lia].
Defined.

(* ================================================================= *)
(** ** Failures of the extraction step *)

(** C1, as the code has it: for an upload that passes validation (allowed
    extension, between 1 and 5,242,880 bytes) and whose bytes are not
    valid UTF-8 (non-PDF path) or whose PDF extraction raises, the
    endpoint answers with the generic [InternalError]: status 500, detail
    [Internal server error]; the model is never invoked. *)
Theorem extraction_failure_is_internal_error
    (ext : externals) (file : UploadFile) :
  Extension.extension_allowed (filename file) = true ->
  (0 < len (contents file) <= 5242880)%Z ->
  (is_pdf (filename file) = false /\ Utf8.decode (contents file) = None)
  \/ (is_pdf (filename file) = true
      /\ failed (pdf_extract_text ext (contents file)) = true) ->
  post_analyze ext file
  = (JSONDetail 500 "Internal server error", extraction_events file)
  /\ is_client_error (fst (post_analyze ext file)) = false
  /\ prompts_sent (snd (post_analyze ext file)) = [].
Proof.
  intros Hext [Hpos Hmax] Hfail.
  assert (Hnone : extracted_text ext file = None).
  { unfold extracted_text.
    destruct Hfail as [[-> Hdec]|[-> Hpdf]]; [assumption|].
    now destruct (pdf_extract_text ext (contents file)). }
  rewrite post_analyze_eq, Hext, Hnone, MAX_BYTES_value. cbn [negb].
  destruct (Z.eqb_spec (len (contents file)) 0); [lia|].
  destruct (Z.gtb_spec (len (contents file)) 5242880); [lia|].
  split; [reflexivity|]. split; [reflexivity|].
  cbn [snd]. unfold extraction_events.
  now destruct (is_pdf (filename file)).
Qed.

Lemma extraction_failure_is_internal_error_witness :
  Utf8.decode (contents Samples.bad_txt) = None
  /\ post_analyze Samples.model_third Samples.bad_txt
     = (JSONDetail 500 "Internal server error", []).
Proof.
  split; [reflexivity|].
  apply (extraction_failure_is_internal_error
           Samples.model_third Samples.bad_txt).
  - reflexivity.
  - vm_compute. split; [reflexivity|discriminate].
  - left. split; reflexivity.
Defined.

(** C1 fails as stated: a [.txt] upload holding the single byte [FF] is
    not valid UTF-8, and the response is the generic 500, which is not a
    400-class status; so is the response for a PDF whose extraction
    raises. *)
Lemma invalid_utf8_is_not_a_client_error :
  Extension.extension_allowed (filename Samples.bad_txt) = true
  /\ Utf8.decode (contents Samples.bad_txt) = None
  /\ fst (post_analyze Samples.model_third Samples.bad_txt)
     = response_of_exn InternalError
  /\ is_client_error
       (fst (post_analyze Samples.model_third Samples.bad_txt)) = false
  /\ failed (pdf_extract_text Samples.model_down
               (contents Samples.scanned_pdf)) = true
  /\ is_client_error
       (fst (post_analyze Samples.model_down Samples.scanned_pdf)) = false.
Proof. repeat split. Qed.

(* ================================================================= *)
(** ** The bounded retry, seen from the caller *)

Section Accepted.

Variable ext : externals.
Variable file : UploadFile.
Variable txt : pystr.

Hypothesis Hext : Extension.extension_allowed (filename file) = true.
Hypothesis Hsize : (0 < len (contents file) <= 5242880)%Z.
Hypothesis Htxt : extracted_text ext file = Some txt.

(** An upload that passes validation and extraction reaches the retry
    loop. *)
Lemma post_analyze_accepted :
  post_analyze ext file =
  let '(r, _, tr) :=
    retry_gemini_request ext THE_MODEL txt DEFAULT_RETRIES 0 in
  (respond_retry r, extraction_events file ++ tr).
Proof.
  rewrite post_analyze_eq, Hext, Htxt, MAX_BYTES_value. cbn [negb].
  destruct (Z.eqb_spec (len (contents file)) 0); [lia|].
  destruct (Z.gtb_spec (len (contents file)) 5242880); [lia|].
  reflexivity.
Qed.

End Accepted.

(** C3: when the model call fails on all three attempts of a request, the
    endpoint answers with [ServiceUnavailable] (status 500), one second is
    slept between the first and the second attempt and two seconds
    between the second and the third, and the seconds slept over the
    request add up to at least 3. *)
Theorem model_unavailable_after_three_failures
    (ext : externals) (file : UploadFile) (txt : pystr) :
  Extension.extension_allowed (filename file) = true ->
  (0 < len (contents file) <= 5242880)%Z ->
  extracted_text ext file = Some txt ->
  (forall k, (k < 3)%nat -> failed (model_outcome ext k txt) = true) ->
  fst (post_analyze ext file) = response_of_exn ServiceUnavailable
  /\ status_of (fst (post_analyze ext file)) = 500%Z
  /\ (exists rest,
        snd (post_analyze ext file)
        = extraction_events file
          ++ EvGenerateContent (prompt txt) (model_outcome ext 0 txt)
          :: EvSleep 1
          :: EvGenerateContent (prompt txt) (model_outcome ext 1 txt)
          :: EvSleep 2
          :: EvGenerateContent (prompt txt) (model_outcome ext 2 txt)
          :: rest)
  /\ (3 <= total_sleep (snd (post_analyze ext file)))%Z.
Proof.
  intros Hext Hsize Htxt Hfail.
  rewrite (post_analyze_accepted ext file txt Hext Hsize Htxt).
  unfold DEFAULT_RETRIES.
  rewrite (retry_three_failures ext THE_MODEL txt 0)
    by (apply Hfail; lia).
  cbn [fst snd respond_retry].
  split; [reflexivity|]. split; [reflexivity|].
  split; [eexists; reflexivity|].
  unfold total_sleep, extraction_events.
  destruct (is_pdf (filename file)); cbn; lia.
Qed.

Lemma model_unavailable_after_three_failures_witness :
  fst (post_analyze Samples.model_down Samples.good_txt)
  = response_of_exn ServiceUnavailable
  /\ (3 <= total_sleep (snd (post_analyze Samples.model_down
                               Samples.good_txt)))%Z.
Proof.
  assert (H := model_unavailable_after_three_failures
                 Samples.model_down Samples.good_txt (py "Hello World")).
  destruct H as [Hres [_ [_ Hsleep]]].
  - reflexivity.
  - vm_compute. split; [reflexivity|discriminate].
  - reflexivity.
  - intros k _. reflexivity.
  - split; assumption.
Defined.



(** C9: when all three calls of the retry routine fail, the routine
    sleeps after every failed call, the last one included: 1, 2 and 4
    seconds, 7 in total, and only then raises [ServiceUnavailable]; and in
    every run of the routine, whatever the model does and however many
    retries are allowed, a successful call is the last event, so no sleep
    follows it. *)
Theorem backoff_after_every_failure
    (ext : externals) (mdl : GenerativeModel) (txt : pystr) (n : nat) :
  ((forall k, (k < 3)%nat -> failed (call_at ext mdl txt (n + k)) = true) ->
   retry_gemini_request ext mdl txt 3 n
   = (Raise ServiceUnavailable, (n + 3)%nat,
      [EvGenerateContent (prompt txt) (call_at ext mdl txt n);
       EvSleep 1;
       EvGenerateContent (prompt txt) (call_at ext mdl txt (n + 1));
       EvSleep 2;
       EvGenerateContent (prompt txt) (call_at ext mdl txt (n + 2));
       EvSleep 4])
   /\ sleeps (snd (retry_gemini_request ext mdl txt 3 n)) = [1; 2; 4]%Z
   /\ total_sleep (snd (retry_gemini_request ext mdl txt 3 n)) = 7%Z)
  /\ (forall retries pre q x post,
        snd (retry_gemini_request ext mdl txt retries n)
        = pre ++ EvGenerateContent q (inl x) :: post ->
        post = []
        /\ fst (fst (retry_gemini_request ext mdl txt retries n)) = Ok x).
Proof.
  split.
  - intros Hfail.
    assert (H0 := Hfail 0%nat ltac:(lia)).
    assert (H1 := Hfail 1%nat ltac:(lia)).
    assert (H2 := Hfail 2%nat ltac:(lia)).
    replace (n + 0)%nat with n in H0 by lia.
    replace (n + 1)%nat with (S n) in * by lia.
    replace (n + 2)%nat with (S (S n)) in * by lia.
    replace (n + 3)%nat with (S (S (S n))) by lia.
    rewrite (retry_three_failures ext mdl txt n H0 H1 H2).
    repeat split.
  - intros retries pre q x post Htr.
    pose proof (retry_loop_run ext mdl txt (seq 0 retries) n) as Hrun.
    unfold retry_gemini_request in Htr |- *.
    destruct (retry_run_success_last _ _ _ _ Hrun _ _ _ _ Htr)
      as [Hpost [Hres _]].
    now split.
Qed.

Lemma backoff_after_every_failure_witness :
  retry_gemini_request Samples.model_down THE_MODEL (py "Hello World") 3 0
  = (Raise ServiceUnavailable, 3%nat,
     [EvGenerateContent (prompt (py "Hello World")) (inr "unavailable"%string);
      EvSleep 1;
      EvGenerateContent (prompt (py "Hello World")) (inr "unavailable"%string);
      EvSleep 2;
      EvGenerateContent (prompt (py "Hello World")) (inr "unavailable"%string);
      EvSleep 4])
  /\ total_sleep
       (snd (retry_gemini_request Samples.model_down THE_MODEL
               (py "Hello World") 3 0)) = 7%Z.
Proof.
  destruct (backoff_after_every_failure
              Samples.model_down THE_MODEL (py "Hello World") 0)
    as [Hall _].
  destruct Hall as [Hrun [_ Htotal]].
  - intros k _. reflexivity.
  - split; [exact Hrun|exact Htotal].
Defined.

(* ================================================================= *)
(** ** The prompt *)

Lemma prompts_sent_app (t1 t2 : list event) :
  prompts_sent (t1 ++ t2) = prompts_sent t1 ++ prompts_sent t2.
Proof.
  induction t1 as [|[bs|p o|s] t1 IH]; simpl; now rewrite ?IH.
Qed.

Lemma prompts_sent_extraction (file : UploadFile) :
  prompts_sent (extraction_events file) = [].
Proof. unfold extraction_events. now destruct (is_pdf (filename file)). Qed.

Lemma slice_to_idempotent (n : N) (s : pystr) :
  slice_to n (slice_to n s) = slice_to n s.
Proof. unfold slice_to. now rewrite firstn_firstn, Nat.min_id. Qed.

Lemma prompt_slice (txt : pystr) :
  prompt (slice_to TEXT_LIMIT txt) = prompt txt.
Proof. unfold prompt. now rewrite slice_to_idempotent. Qed.

(** The loop reads the text through the prompt only. *)
Lemma retry_loop_prompt (ext : externals) (mdl : GenerativeModel)
    (t1 t2 : pystr) (attempts : list nat) (n : nat) :
  prompt t1 = prompt t2 ->
  retry_loop ext mdl t1 attempts n = retry_loop ext mdl t2 attempts n.
Proof.
  intros Hp. revert n; induction attempts as [|attempt rest IH]; intros n.
  - reflexivity.
  - assert (Hcall : call_at ext mdl t1 n = call_at ext mdl t2 n)
      by (unfold call_at; now rewrite Hp).
    destruct (call_at ext mdl t2 n) as [r|msg] eqn:H2.
    + rewrite (retry_loop_ok ext mdl t1 attempt rest n r Hcall),
        (retry_loop_ok ext mdl t2 attempt rest n r H2).
      now rewrite Hp.
    + destruct (Z_le_gt_dec (2 ^ Z.of_nat attempt) SLEEP_MAX) as [Hs|Hs].
      * rewrite (retry_loop_fail ext mdl t1 attempt rest n msg Hcall Hs),
          (retry_loop_fail ext mdl t2 attempt rest n msg H2 Hs).
        now rewrite IH, Hp.
      * rewrite (retry_loop_overflow ext mdl t1 attempt rest n msg Hcall),
          (retry_loop_overflow ext mdl t2 attempt rest n msg H2) by lia.
        now rewrite Hp.
Qed.

(** Either the request sends no prompt, or it passed the emptiness check
    and every prompt is the prompt of the extracted text. *)
Lemma prompts_of_request (ext : externals) (file : UploadFile) :
  prompts_sent (snd (post_analyze ext file)) = []
  \/ exists txt,
       extracted_text ext file = Some txt
       /\ len (contents file) <> 0%Z
       /\ Forall (eq (prompt txt))
            (prompts_sent (snd (post_analyze ext file))).
Proof.
  rewrite post_analyze_eq.
  destruct (negb _); [now left|].
  destruct (Z.eqb_spec (len (contents file)) 0) as [|Hlen]; [now left|].
  destruct (_ >? _)%Z; [now left|].
  destruct (extracted_text ext file) as [txt|].
  - right. exists txt. split; [reflexivity|]. split; [assumption|].
    pose proof (retry_loop_run ext THE_MODEL txt (seq 0 DEFAULT_RETRIES) 0)
      as Hrun.
    apply retry_run_prompts in Hrun.
    unfold retry_gemini_request.
    destruct (retry_loop ext THE_MODEL txt (seq 0 DEFAULT_RETRIES) 0)
      as [[r n'] tr].
    cbn [fst snd] in Hrun |- *.
    now rewrite prompts_sent_app, prompts_sent_extraction.
  - left. cbn [snd]. apply prompts_sent_extraction.
Qed.

(** C5: the part of the prompt after the template holds, at position
    [i], the character of the text at position [i] when [i < 45000] and
    nothing otherwise; every prompt sent by the retry routine, on every
    attempt, is this prompt, and the routine behaves on a text as on its
    first 45,000 characters; and every prompt the endpoint sends is the
    prompt of the text it extracted. *)
Theorem prompt_holds_first_45000 (ext : externals) :
  (forall txt i,
      nth_error (prompt txt) (List.length (py PROMPT_TEMPLATE) + i)
      = if (N.of_nat i <? 45000)%N then nth_error txt i else None)
  /\ (forall mdl txt retries n,
        Forall (eq (py PROMPT_TEMPLATE ++ slice_to 45000 txt))
          (prompts_sent (snd (retry_gemini_request ext mdl txt retries n)))
        /\ retry_gemini_request ext mdl txt retries n
           = retry_gemini_request ext mdl (slice_to 45000 txt) retries n)
  /\ (forall file,
        Forall (fun p => exists txt,
                    extracted_text ext file = Some txt
                    /\ p = py PROMPT_TEMPLATE ++ slice_to 45000 txt)
          (prompts_sent (snd (post_analyze ext file)))).
Proof.
  split; [|split].
  - intros txt i. unfold prompt, slice_to, TEXT_LIMIT.
    rewrite nth_error_app2 by lia.
    replace (List.length (py PROMPT_TEMPLATE) + i
             - List.length (py PROMPT_TEMPLATE))%nat with i by lia.
    rewrite nth_error_firstn.
    destruct (Nat.ltb_spec i (N.to_nat 45000)),
      (N.ltb_spec (N.of_nat i) 45000); try reflexivity; lia.
  - intros mdl txt retries n. split.
    + apply (retry_run_prompts (prompt txt) (seq 0 retries)
               (fst (fst (retry_loop ext mdl txt (seq 0 retries) n)))).
      apply retry_loop_run.
    + unfold retry_gemini_request. apply retry_loop_prompt.
      symmetry. apply prompt_slice.
  - intros file.
    destruct (prompts_of_request ext file)
      as [->|[txt [Htxt [_ Hall]]]]; [constructor|].
    eapply Forall_impl; [|exact Hall].
    intros p <-. now exists txt.
Qed.

(* ================================================================= *)
(** ** The extracted text *)

(** C8, as the code has it: on the non-PDF path, every prompt the
    endpoint sends is the prompt of the decoded text of the upload, and
    that text, as well as the part of it interpolated into the prompt, is
    non-empty.  (On the PDF path the text is whatever the extraction
    routine returned.) *)
Theorem decoded_text_nonempty (ext : externals) (file : UploadFile) :
  is_pdf (filename file) = false ->
  Forall (fun p => exists txt,
              Utf8.decode (contents file) = Some txt
              /\ txt <> []
              /\ slice_to TEXT_LIMIT txt <> []
              /\ p = prompt txt)
    (prompts_sent (snd (post_analyze ext file))).
Proof.
  intros Hpdf.
  destruct (prompts_of_request ext file) as [Hcases|Hsent].
  - rewrite Hcases. constructor.
  - destruct Hsent as [txt [Htxt [Hlen Hall]]].
    eapply Forall_impl; [|exact Hall].
    intros p <-. exists txt.
    unfold extracted_text in Htxt. rewrite Hpdf in Htxt.
    assert (Hne : txt <> []).
    { apply (Utf8Facts.decode_nonempty (contents file)); [|assumption].
      intros Hnil. rewrite Hnil in Hlen. now apply Hlen. }
    repeat split; try assumption.
    unfold slice_to, TEXT_LIMIT.
    destruct txt as [|c txt]; [congruence|].
    destruct (N.to_nat 45000) eqn:E; [lia|discriminate].
Qed.

Lemma decoded_text_nonempty_witness :
  is_pdf (filename Samples.good_txt) = false
  /\ List.length
       (prompts_sent (snd (post_analyze Samples.model_third
                             Samples.good_txt))) = 3%nat
  /\ Forall (fun p => exists txt,
                 Utf8.decode (contents Samples.good_txt) = Some txt
                 /\ txt <> []
                 /\ slice_to TEXT_LIMIT txt <> []
                 /\ p = prompt txt)
       (prompts_sent (snd (post_analyze Samples.model_third
                             Samples.good_txt))).
Proof.
  split; [reflexivity|]. split; [reflexivity|].
  apply (decoded_text_nonempty Samples.model_third Samples.good_txt).
  reflexivity.
Defined.

(** C8 fails as stated: for a PDF from which the extraction routine
    returns the empty string (a scan without text layer), the upload
    passes validation, the model is invoked three times, and the text
    interpolated into each prompt is empty: each prompt is the bare
    template. *)
Lemma empty_text_reaches_model :
  extracted_text Samples.model_third Samples.scanned_pdf = Some []
  /\ prompts_sent (snd (post_analyze Samples.model_third Samples.scanned_pdf))
     = [prompt []; prompt []; prompt []]
  /\ prompt [] = py PROMPT_TEMPLATE
  /\ fst (post_analyze Samples.model_third Samples.scanned_pdf)
     = JSONData 200 (py "{}").
Proof. repeat split. Qed.

(* ================================================================= *)
(** ** Startup and health *)

Section HealthFacts.

Variables mem_sample cpu_sample mem_report : Type.
Variable render_memory : mem_sample -> mem_report.

(** No handler changes the module-level names. *)
Lemma handle_globals (g : globals) (rq : request mem_sample cpu_sample) :
  fst (handle render_memory g rq) = g.
Proof.
  destruct rq as [ext file|mem cpu]; simpl; [|reflexivity].
  now destruct (post_analyze ext file).
Qed.

Lemma serve_globals (g : globals) (rqs : list (request mem_sample cpu_sample)) :
  fst (serve render_memory g rqs) = g.
Proof.
  revert g; induction rqs as [|rq rqs IH]; intros g; simpl; [reflexivity|].
  pose proof (handle_globals g rq) as Hg.
  destruct (handle render_memory g rq) as [g1 rp]. simpl in Hg. subst g1.
  specialize (IH g).
  destruct (serve render_memory g rqs) as [g2 rps]. assumption.
Qed.

(** With a credential in place, every health reply reports it. *)
Lemma serve_ready (g : globals) (rqs : list (request mem_sample cpu_sample)) :
  truthy (GEMINI_API_KEY g) = true ->
  health_replies_ready (snd (serve render_memory g rqs)).
Proof.
  intros Hkey. unfold health_replies_ready.
  revert g Hkey; induction rqs as [|rq rqs IH]; intros g Hkey; simpl.
  - constructor.
  - pose proof (handle_globals g rq) as Hg.
    destruct (handle render_memory g rq) as [g1 rp] eqn:Hrq.
    simpl in Hg. subst g1.
    specialize (IH g Hkey).
    destruct (serve render_memory g rqs) as [g2 rps]. simpl in IH |- *.
    constructor; [|assumption].
    destruct rq as [ext file|mem cpu]; simpl in Hrq.
    + destruct (post_analyze ext file). now injection Hrq as <-.
    + now injection Hrq as <-.
Qed.

End HealthFacts.

(** A missing or empty credential aborts the module initialisation. *)
Lemma module_init_aborts (genai_configure : option string -> unit + string)
    (env : environ) :
  truthy (getenv env "GEMINI_API_KEY") = false ->
  module_init genai_configure env
  = Raise (RuntimeError "API key not configured").
Proof. unfold module_init. now intros ->. Qed.

(** C10: in a process whose module initialisation completed, the
    credential was present and non-empty at startup, no request changes
    it, and every reply of the health endpoint, after any sequence of
    requests, has [api_ready] true. *)
Theorem api_ready_always_true
    (mem_sample cpu_sample mem_report : Type)
    (render_memory : mem_sample -> mem_report)
    (genai_configure : option string -> unit + string)
    (env : environ) (g : globals)
    (rqs : list (request mem_sample cpu_sample)) :
  module_init genai_configure env = Ok g ->
  truthy (getenv env "GEMINI_API_KEY") = true
  /\ fst (serve render_memory g rqs) = g
  /\ health_replies_ready (snd (serve render_memory g rqs))
  /\ forall (mem : mem_sample) (cpu : cpu_sample),
       api_ready (health_check render_memory g mem cpu) = true.
Proof.
  unfold module_init. intros Hinit.
  destruct (truthy (getenv env "GEMINI_API_KEY")) eqn:Hkey;
    [|discriminate].
  injection Hinit as <-.
  split; [reflexivity|]. split; [apply serve_globals|].
  split; [now apply serve_ready|].
  intros mem cpu. exact Hkey.
Qed.

Lemma api_ready_always_true_witness :
  health_replies_ready
    (snd (serve (fun _ : unit => tt)
            {| GEMINI_API_KEY := Some "secret"%string |}
            [GetHealth tt tt;
             PostAnalyze Samples.model_down Samples.bad_txt;
             GetHealth tt tt])).
Proof.
  apply (api_ready_always_true unit unit unit (fun _ => tt)
           Samples.configure_ok Samples.environ_with_key
           {| GEMINI_API_KEY := Some "secret"%string |}
           [GetHealth tt tt;
            PostAnalyze Samples.model_down Samples.bad_txt;
            GetHealth tt tt]).
  reflexivity.
Defined.

(* ================================================================= *)
(** * Further properties of the code *)

(** ** Accepted names *)

Lemma lower_dot_free (e : pystr) :
  ~ In Extension.DOT (lower e) -> ~ In Extension.DOT e.
Proof.
  intros H Hin. apply H. unfold lower.
  apply in_map_iff. exists Extension.DOT. now split.
Qed.

Lemma allowed_extension_dot_free (e : pystr) :
  In e Extension.ALLOWED_EXTENSIONS -> ~ In Extension.DOT e.
Proof.
  pose proof ExtensionFacts.allowed_extensions_dot_free as H.
  rewrite Forall_forall in H. apply H.
Qed.

(** X1: the extension test of the endpoint accepts exactly the names of
    the form [stem.e] where [e], lowered, is one of pdf, doc, docx, txt;
    the stem is free (it may be empty or hold further dots), and a name
    that takes the PDF branch of the extraction is always an accepted
    one. *)
Theorem accepted_names (name : pystr) :
  (has_allowed_suffix name = true <->
   exists stem e,
     name = stem ++ Extension.DOT :: e
     /\ In (lower e) Extension.ALLOWED_EXTENSIONS)
  /\ (is_pdf name = true <->
      exists stem e,
        name = stem ++ Extension.DOT :: e /\ lower e = py "pdf")
  /\ (is_pdf name = true -> has_allowed_suffix name = true).
Proof.
  assert (Hall : has_allowed_suffix name = true <->
                 exists stem e,
                   name = stem ++ Extension.DOT :: e
                   /\ In (lower e) Extension.ALLOWED_EXTENSIONS).
  { rewrite ExtensionFacts.has_allowed_suffix_extension.
    unfold Extension.extension_allowed. split.
    - destruct (Extension.extension name) as [e|] eqn:He; [|discriminate].
      intros Hex. apply existsb_exists in Hex as [x [Hx Heq]].
      apply ExtensionFacts.pystr_eqb_eq in Heq. subst x.
      apply ExtensionFacts.extension_some in He as [[stem ->] _].
      now exists stem, e.
    - intros [stem [e [-> Hin]]].
      rewrite ExtensionFacts.extension_app
        by (apply lower_dot_free; now apply allowed_extension_dot_free).
      apply existsb_exists. exists (lower e). split; [assumption|].
      now apply ExtensionFacts.pystr_eqb_eq. }
  assert (Hpdf : is_pdf name = true <->
                 exists stem e,
                   name = stem ++ Extension.DOT :: e /\ lower e = py "pdf").
  { unfold is_pdf.
    change (py ".pdf") with (Extension.DOT :: py "pdf").
    rewrite ExtensionFacts.endswith_dot, ExtensionFacts.extension_lower
      by (vm_compute; intuition discriminate).
    split.
    - destruct (Extension.extension name) as [e|] eqn:He; [|discriminate].
      simpl. intros Heq. apply ExtensionFacts.pystr_eqb_eq in Heq.
      apply ExtensionFacts.extension_some in He as [[stem ->] _].
      now exists stem, e.
    - intros [stem [e [-> Hlow]]].
      rewrite ExtensionFacts.extension_app.
      + simpl. now apply ExtensionFacts.pystr_eqb_eq.
      + apply lower_dot_free. rewrite Hlow.
        vm_compute; intuition discriminate. }
  split; [exact Hall|]. split; [exact Hpdf|].
  intros H. apply Hall. apply Hpdf in H as [stem [e [-> Hlow]]].
  exists stem, e. split; [reflexivity|]. rewrite Hlow. now left.
Qed.

(* ================================================================= *)
(** ** The retry routine in general *)

Lemma sleeps_app (t1 t2 : list event) :
  sleeps (t1 ++ t2) = sleeps t1 ++ sleeps t2.
Proof.
  induction t1 as [|[bs|p o|s] t1 IH]; simpl; now rewrite ?IH.
Qed.

Lemma total_sleep_app (t1 t2 : list event) :
  total_sleep (t1 ++ t2) = (total_sleep t1 + total_sleep t2)%Z.
Proof.
  unfold total_sleep. rewrite sleeps_app.
  induction (sleeps t1) as [|s l IH]; simpl; lia.
Qed.

(** The sum of the powers of two of consecutive attempts. *)
Lemma sum_pow2_seq (start k : nat) :
  fold_right Z.add 0%Z (map (fun a => 2 ^ Z.of_nat a)%Z (seq start k))
  = (2 ^ Z.of_nat (start + k) - 2 ^ Z.of_nat start)%Z.
Proof.
  revert start; induction k as [|k IH]; intros start; simpl.
  - rewrite Nat.add_0_r. lia.
  - rewrite IH.
    replace (start + S k)%nat with (S start + k)%nat by lia.
    replace (Z.of_nat (S start)) with (Z.succ (Z.of_nat start)) by lia.
    rewrite (Z.pow_succ_r 2 (Z.of_nat start)) by lia. lia.
Qed.

Lemma pow2_short (attempt : nat) :
  (attempt < SLEEPING_ATTEMPTS)%nat -> (2 ^ Z.of_nat attempt <= SLEEP_MAX)%Z.
Proof.
  unfold SLEEPING_ATTEMPTS. intros H.
  apply Z.le_trans with (2 ^ 33)%Z; [|short_sleep].
  apply Z.pow_le_mono_r; lia.
Qed.

Lemma pow2_long (attempt : nat) :
  (SLEEPING_ATTEMPTS <= attempt)%nat -> (SLEEP_MAX < 2 ^ Z.of_nat attempt)%Z.
Proof.
  unfold SLEEPING_ATTEMPTS. intros H.
  apply Z.lt_le_trans with (2 ^ 34)%Z; [reflexivity|].
  apply Z.pow_le_mono_r; lia.
Qed.

Section RetryGeneral.

Variable ext : externals.
Variable mdl : GenerativeModel.
Variable txt : pystr.

Lemma sleeps_failure_events (attempt n k : nat) :
  sleeps (failure_events ext mdl txt attempt n k)
  = map (fun a => 2 ^ Z.of_nat a)%Z (seq attempt k).
Proof.
  revert attempt n; induction k as [|k IH]; intros attempt n; simpl;
    [reflexivity|]. now rewrite IH.
Qed.

Lemma total_sleep_failure_events (attempt n k : nat) :
  total_sleep (failure_events ext mdl txt attempt n k)
  = (2 ^ Z.of_nat (attempt + k) - 2 ^ Z.of_nat attempt)%Z.
Proof.
  unfold total_sleep. rewrite sleeps_failure_events. apply sum_pow2_seq.
Qed.

Lemma prompts_failure_events (attempt n k : nat) :
  List.length (prompts_sent (failure_events ext mdl txt attempt n k)) = k.
Proof.
  revert attempt n; induction k as [|k IH]; intros attempt n; simpl;
    [reflexivity|]. now rewrite IH.
Qed.

(** A run that starts with [k] failures, all of them at attempts whose
    sleep is accepted. *)
Lemma retry_loop_failures (k attempt n : nat) (rest : list nat) :
  (attempt + k <= SLEEPING_ATTEMPTS)%nat ->
  (forall i, (i < k)%nat -> failed (call_at ext mdl txt (n + i)) = true) ->
  retry_loop ext mdl txt (seq attempt k ++ rest) n
  = let '(r, n', tr) := retry_loop ext mdl txt rest (n + k) in
    (r, n', failure_events ext mdl txt attempt n k ++ tr).
Proof.
  revert attempt n; induction k as [|k IH]; intros attempt n Hshort Hfail.
  - simpl. rewrite Nat.add_0_r.
    now destruct (retry_loop ext mdl txt rest n) as [[r n'] tr].
  - assert (H0 := Hfail 0%nat ltac:(lia)). rewrite Nat.add_0_r in H0.
    destruct (call_at ext mdl txt n) as [?|msg] eqn:Hcall; [discriminate|].
    cbn [seq app].
    rewrite (retry_loop_fail ext mdl txt attempt _ n msg Hcall)
      by (apply pow2_short; lia).
    rewrite (IH (S attempt) (S n)).
    + replace (S n + k)%nat with (n + S k)%nat by lia.
      destruct (retry_loop ext mdl txt rest (n + S k)) as [[r n'] tr].
      cbn [failure_events app]. now rewrite Hcall.
    + lia.
    + intros i Hi. replace (S n + i)%nat with (n + S i)%nat by lia.
      apply Hfail. lia.
Qed.

(** The result of a run over consecutive attempts, read off the calls. *)
Lemma retry_loop_first_answer (k attempt n : nat) :
  (attempt <= SLEEPING_ATTEMPTS)%nat ->
  fst (fst (retry_loop ext mdl txt (seq attempt k) n))
  = match first_answer ext mdl txt n
            (Nat.min k (S SLEEPING_ATTEMPTS - attempt)) with
    | Some r => Ok r
    | None =>
      if (attempt + k <=? SLEEPING_ATTEMPTS)%nat
      then Raise ServiceUnavailable
      else Raise SLEEP_OVERFLOW
    end.
Proof.
  revert attempt n; induction k as [|k IH]; intros attempt n Hshort.
  - cbn [seq Nat.min first_answer]. rewrite Nat.add_0_r.
    destruct (Nat.leb_spec attempt SLEEPING_ATTEMPTS); [reflexivity|lia].
  - cbn [seq].
    replace (Nat.min (S k) (S SLEEPING_ATTEMPTS - attempt))
      with (S (Nat.min k (SLEEPING_ATTEMPTS - attempt))) by lia.
    cbn [first_answer].
    destruct (call_at ext mdl txt n) as [r|msg] eqn:Hcall.
    + now rewrite (retry_loop_ok ext mdl txt attempt _ n r Hcall).
    + destruct (Nat.eq_dec attempt SLEEPING_ATTEMPTS) as [->|Hne].
      * rewrite (retry_loop_overflow ext mdl txt _ _ n msg Hcall)
          by (apply pow2_long; lia).
        rewrite Nat.sub_diag, Nat.min_0_r. cbn [first_answer fst].
        destruct (Nat.leb_spec (SLEEPING_ATTEMPTS + S k) SLEEPING_ATTEMPTS);
          [lia|reflexivity].
      * rewrite (retry_loop_fail ext mdl txt attempt _ n msg Hcall)
          by (apply pow2_short; lia).
        specialize (IH (S attempt) (S n) ltac:(lia)).
        replace (S SLEEPING_ATTEMPTS - S attempt)%nat
          with (SLEEPING_ATTEMPTS - attempt)%nat in IH by lia.
        replace (S attempt + k)%nat with (attempt + S k)%nat in IH by lia.
        rewrite <- IH.
        now destruct (retry_loop ext mdl txt (seq (S attempt) k) (S n))
          as [[r n'] tr].
Qed.

End RetryGeneral.

Lemma retry_run_calls_bound (p : pystr) attempts res tr :
  retry_run p attempts res tr ->
  (List.length (prompts_sent tr) <= List.length attempts)%nat.
Proof. induction 1; simpl; lia. Qed.

Lemma sum_pow2_nonneg (l : list nat) :
  (0 <= fold_right Z.add 0 (map (fun a => 2 ^ Z.of_nat a) l))%Z.
Proof.
  induction l as [|a l IH]; simpl; [lia|].
  pose proof (pow2_nonneg a). lia.
Qed.

Lemma retry_run_sleep_bound (p : pystr) attempts res tr :
  retry_run p attempts res tr ->
  (0 <= total_sleep tr
   <= fold_right Z.add 0 (map (fun a => 2 ^ Z.of_nat a) attempts))%Z.
Proof.
  unfold total_sleep.
  induction 1 as [|attempt rest r0|attempt rest msg res tr Hs Hrun IH
                  |attempt rest msg Hs]; simpl.
  - lia.
  - pose proof (pow2_nonneg attempt). pose proof (sum_pow2_nonneg rest). lia.
  - pose proof (pow2_nonneg attempt). lia.
  - pose proof (pow2_nonneg attempt). pose proof (sum_pow2_nonneg rest). lia.
Qed.

Lemma retry_run_no_extract (p : pystr) attempts res tr :
  retry_run p attempts res tr -> existsb is_extract tr = false.
Proof. induction 1; simpl; auto. Qed.

(** A run that ends well ends with the call that answered. *)
Lemma retry_run_ok_last (p : pystr) attempts r tr :
  retry_run p attempts (Ok r) tr ->
  exists pre, tr = pre ++ [EvGenerateContent p (inl r)].
Proof.
  intros H. remember (Ok r) as res eqn:Hres.
  induction H as [|attempt rest r0|attempt rest msg res tr Hs Hrun IH
                  |attempt rest msg Hs].
  - discriminate.
  - injection Hres as ->. now exists [].
  - destruct (IH Hres) as [pre ->].
    now exists (EvGenerateContent p (inr msg)
                  :: EvSleep (2 ^ Z.of_nat attempt) :: pre).
  - discriminate.
Qed.

(** X2: when the first [k] calls of the retry routine fail and the next
    one answers, with [k] smaller than the number of retries and at most
    34 (the sleeps of attempts 0 to 33 are the ones [time.sleep]
    accepts), the routine returns that answer after [k + 1] calls, having
    slept [2^i] seconds after the failure of attempt [i], [2^k - 1]
    seconds in all. *)
Theorem retry_returns_after_failures
    (ext : externals) (mdl : GenerativeModel) (txt : pystr)
    (retries n k : nat) (r : GenerateContentResponse) :
  (k < retries)%nat ->
  (k <= 34)%nat ->
  (forall i, (i < k)%nat -> failed (call_at ext mdl txt (n + i)) = true) ->
  call_at ext mdl txt (n + k) = inl r ->
  retry_gemini_request ext mdl txt retries n
  = (Ok r, S (n + k),
     failure_events ext mdl txt 0 n k
     ++ [EvGenerateContent (prompt txt) (inl r)])
  /\ sleeps (snd (retry_gemini_request ext mdl txt retries n))
     = map (fun a => 2 ^ Z.of_nat a)%Z (seq 0 k)
  /\ total_sleep (snd (retry_gemini_request ext mdl txt retries n))
     = (2 ^ Z.of_nat k - 1)%Z.
Proof.
  intros Hk Hshort Hfail Hok.
  assert (Hrun : retry_gemini_request ext mdl txt retries n
                 = (Ok r, S (n + k),
                    failure_events ext mdl txt 0 n k
                    ++ [EvGenerateContent (prompt txt) (inl r)])).
  { unfold retry_gemini_request.
    replace retries with (k + S (retries - S k))%nat by lia.
    rewrite seq_app. cbn [seq].
    rewrite (retry_loop_failures ext mdl txt k 0 n _ Hshort Hfail).
    now rewrite (retry_loop_ok ext mdl txt _ _ (n + k) r Hok). }
  rewrite Hrun. cbn [snd]. split; [reflexivity|].
  rewrite sleeps_app, total_sleep_app, sleeps_failure_events,
    total_sleep_failure_events.
  split; [apply app_nil_r|]. cbn. lia.
Qed.

Lemma retry_returns_after_failures_witness :
  retry_gemini_request Samples.model_third THE_MODEL (py "Hello World") 5 0
  = (Ok Samples.answer, 3%nat,
     failure_events Samples.model_third THE_MODEL (py "Hello World") 0 0 2
     ++ [EvGenerateContent (prompt (py "Hello World"))
           (inl Samples.answer)])
  /\ total_sleep
       (snd (retry_gemini_request Samples.model_third THE_MODEL
               (py "Hello World") 5 0)) = 3%Z.
Proof.
  destruct (retry_returns_after_failures
              Samples.model_third THE_MODEL (py "Hello World")
              5 0 2 Samples.answer) as [Hrun [_ Htotal]].
  - lia.
  - lia.
  - intros i Hi.
    destruct i as [|[|i]]; [reflexivity|reflexivity|lia].
  - reflexivity.
  - split; [exact Hrun|exact Htotal].
Defined.

(** X3: when every call of the retry routine fails.  With at most 34
    retries the routine raises [ServiceUnavailable] after exactly
    [retries] calls and [2^retries - 1] seconds of sleep (with no retry
    allowed: at once, without a call or a sleep).  With 35 retries or
    more it never gets that far: after the failure of attempt 34,
    [time.sleep(2 ** 34)] raises [OverflowError] inside the [except]
    clause, and that exception leaves the routine after 35 calls and
    [2^34 - 1] seconds of sleep. *)
Theorem retry_exhausted
    (ext : externals) (mdl : GenerativeModel) (txt : pystr)
    (retries n : nat) :
  ((retries <= 34)%nat ->
   (forall i, (i < retries)%nat ->
              failed (call_at ext mdl txt (n + i)) = true) ->
   retry_gemini_request ext mdl txt retries n
   = (Raise ServiceUnavailable, (n + retries)%nat,
      failure_events ext mdl txt 0 n retries)
   /\ List.length
        (prompts_sent (snd (retry_gemini_request ext mdl txt retries n)))
      = retries
   /\ total_sleep (snd (retry_gemini_request ext mdl txt retries n))
      = (2 ^ Z.of_nat retries - 1)%Z)
  /\ ((35 <= retries)%nat ->
      (forall i, (i < 35)%nat ->
                 failed (call_at ext mdl txt (n + i)) = true) ->
      retry_gemini_request ext mdl txt retries n
      = (Raise SLEEP_OVERFLOW, (n + 35)%nat,
         failure_events ext mdl txt 0 n 34
         ++ [EvGenerateContent (prompt txt) (call_at ext mdl txt (n + 34))])
      /\ total_sleep (snd (retry_gemini_request ext mdl txt retries n))
         = (2 ^ 34 - 1)%Z)
  /\ retry_gemini_request ext mdl txt 0 n
     = (Raise ServiceUnavailable, n, []).
Proof.
  split; [|split; [|reflexivity]].
  - intros Hshort Hfail.
    assert (Hrun : retry_gemini_request ext mdl txt retries n
                   = (Raise ServiceUnavailable, (n + retries)%nat,
                      failure_events ext mdl txt 0 n retries)).
    { unfold retry_gemini_request.
      rewrite <- (app_nil_r (seq 0 retries)).
      rewrite (retry_loop_failures ext mdl txt retries 0 n [] Hshort Hfail).
      rewrite retry_loop_nil. now rewrite app_nil_r. }
    rewrite Hrun. cbn [snd].
    rewrite prompts_failure_events, total_sleep_failure_events.
    repeat split.
  - intros Hlong Hfail.
    assert (Hrun : retry_gemini_request ext mdl txt retries n
                   = (Raise SLEEP_OVERFLOW, (n + 35)%nat,
                      failure_events ext mdl txt 0 n 34
                      ++ [EvGenerateContent (prompt txt)
                            (call_at ext mdl txt (n + 34))])).
    { unfold retry_gemini_request.
      replace retries with (34 + S (retries - 35))%nat by lia.
      rewrite seq_app. cbn [seq].
      rewrite (retry_loop_failures ext mdl txt 34 0 n _ (Nat.le_refl _))
        by (intros i Hi; apply Hfail; lia).
      assert (H34 := Hfail 34%nat ltac:(lia)).
      destruct (call_at ext mdl txt (n + 34)) as [?|msg] eqn:Hcall;
        [discriminate|].
      rewrite (retry_loop_overflow ext mdl txt _ _ (n + 34) msg Hcall)
        by (apply pow2_long; unfold SLEEPING_ATTEMPTS; lia).
      repeat f_equal. lia. }
    rewrite Hrun. cbn [snd]. split; [reflexivity|].
    rewrite total_sleep_app, total_sleep_failure_events. reflexivity.
Qed.

Lemma retry_exhausted_witness :
  (total_sleep
     (snd (retry_gemini_request Samples.model_down THE_MODEL
             (py "Hello World") 5 0)) = 31%Z
   /\ List.length
        (prompts_sent
           (snd (retry_gemini_request Samples.model_down THE_MODEL
                   (py "Hello World") 5 0))) = 5%nat)
  /\ fst (fst (retry_gemini_request Samples.model_down THE_MODEL
                 (py "Hello World") 36 0)) = Raise SLEEP_OVERFLOW.
Proof.
  split.
  - destruct (retry_exhausted Samples.model_down THE_MODEL
                (py "Hello World") 5 0) as [Hshort _].
    destruct Hshort as [_ [Hcalls Htotal]].
    + lia.
    + intros i _. reflexivity.
    + split; [exact Htotal|exact Hcalls].
  - destruct (retry_exhausted Samples.model_down THE_MODEL
                (py "Hello World") 36 0) as [_ [Hlong _]].
    destruct Hlong as [Hrun _].
    + lia.
    + intros i _. reflexivity.
    + now rewrite Hrun.
Defined.

(** X4: whatever the model does and whatever the number of retries, the
    result of the retry routine is the answer of the first call that
    does not fail among the calls it can reach (the first [retries]
    calls, and never more than 35); when none of them answers, it is
    [ServiceUnavailable] for at most 34 retries and the [OverflowError]
    of [time.sleep(2 ** 34)] for more. *)
Theorem retry_result_is_first_answer
    (ext : externals) (mdl : GenerativeModel) (txt : pystr)
    (retries n : nat) :
  fst (fst (retry_gemini_request ext mdl txt retries n))
  = first_answer_or_failure ext mdl txt n retries.
Proof.
  unfold retry_gemini_request, first_answer_or_failure.
  rewrite retry_loop_first_answer by lia.
  now rewrite Nat.sub_0_r.
Qed.

(** The calls and the sleep of a run, bounded by the number of retries. *)
Lemma retry_calls_and_sleep
    (ext : externals) (mdl : GenerativeModel) (txt : pystr)
    (retries n : nat) :
  (List.length
     (prompts_sent (snd (retry_gemini_request ext mdl txt retries n)))
   <= retries)%nat
  /\ snd (fst (retry_gemini_request ext mdl txt retries n))
     = (n + List.length
              (prompts_sent
                 (snd (retry_gemini_request ext mdl txt retries n))))%nat
  /\ (0 <= total_sleep (snd (retry_gemini_request ext mdl txt retries n))
      <= 2 ^ Z.of_nat retries - 1)%Z.
Proof.
  unfold retry_gemini_request.
  pose proof (retry_loop_run ext mdl txt (seq 0 retries) n) as Hrun.
  split; [|split].
  - apply retry_run_calls_bound in Hrun. now rewrite length_seq in Hrun.
  - apply retry_loop_calls.
  - apply retry_run_sleep_bound in Hrun.
    rewrite sum_pow2_seq in Hrun. cbn in Hrun. exact Hrun.
Qed.

(** X5: whatever the model does, the retry routine calls it at most
    [retries] times, advances the call counter by the number of calls it
    made, and sleeps between 0 and [2^retries - 1] seconds in all. *)
Theorem retry_bounds
    (ext : externals) (mdl : GenerativeModel) (txt : pystr)
    (retries n : nat) :
  (List.length
     (prompts_sent (snd (retry_gemini_request ext mdl txt retries n)))
   <= retries)%nat
  /\ snd (fst (retry_gemini_request ext mdl txt retries n))
     = (n + List.length
              (prompts_sent
                 (snd (retry_gemini_request ext mdl txt retries n))))%nat
  /\ (0 <= total_sleep (snd (retry_gemini_request ext mdl txt retries n))
      <= 2 ^ Z.of_nat retries - 1)%Z.
Proof. apply retry_calls_and_sleep. Qed.

(* ================================================================= *)
(** ** The endpoint as a whole *)

Section Branches.

Variable ext : externals.
Variable file : UploadFile.

(** The three ways a request can go. *)
Lemma post_analyze_branches :
  (accepted file = false
   /\ snd (post_analyze ext file) = []
   /\ exists detail, fst (post_analyze ext file) = JSONDetail 400 detail)
  \/ (accepted file = true
      /\ extracted_text ext file = None
      /\ post_analyze ext file
         = (response_of_exn InternalError, extraction_events file))
  \/ (accepted file = true
      /\ exists txt,
          extracted_text ext file = Some txt
          /\ post_analyze ext file
             = (respond_retry
                  (fst (fst (retry_gemini_request ext THE_MODEL txt
                               DEFAULT_RETRIES 0))),
                extraction_events file
                ++ snd (retry_gemini_request ext THE_MODEL txt
                          DEFAULT_RETRIES 0))).
Proof.
  rewrite post_analyze_eq. unfold accepted.
  rewrite ExtensionFacts.has_allowed_suffix_extension.
  destruct (Extension.extension_allowed (filename file)); cbn [negb andb];
    [|left; repeat split; eexists; reflexivity].
  destruct (len (contents file) =? 0)%Z; cbn [negb andb];
    [left; repeat split; eexists; reflexivity|].
  destruct (len (contents file) >? MAX_BYTES)%Z; cbn [negb andb];
    [left; repeat split; eexists; reflexivity|].
  right. destruct (extracted_text ext file) as [txt|].
  - right. split; [reflexivity|]. exists txt. split; [reflexivity|].
    now destruct (retry_gemini_request ext THE_MODEL txt DEFAULT_RETRIES 0)
      as [[r n'] tr].
  - left. now repeat split.
Qed.

Lemma total_sleep_extraction : total_sleep (extraction_events file) = 0%Z.
Proof. unfold extraction_events. now destruct (is_pdf (filename file)). Qed.

End Branches.

Lemma filter_none {A} (f : A -> bool) (l : list A) :
  existsb f l = false -> filter f l = [].
Proof.
  induction l as [|a l IH]; simpl; [reflexivity|].
  intros H. apply orb_false_iff in H as [-> Hl]. auto.
Qed.

(** X6: whatever the upload and whatever the collaborators do, one
    request calls the model at most 3 times, sleeps at most 7 seconds in
    all, and runs the PDF extraction at most once. *)
Theorem request_bounds (ext : externals) (file : UploadFile) :
  (List.length (prompts_sent (snd (post_analyze ext file))) <= 3)%nat
  /\ (0 <= total_sleep (snd (post_analyze ext file)) <= 7)%Z
  /\ (List.length (filter is_extract (snd (post_analyze ext file))) <= 1)%nat.
Proof.
  destruct (post_analyze_branches ext file)
    as [[_ [-> _]]|[[_ [_ ->]]|[_ [txt [_ ->]]]]]; cbn [snd].
  - split; [|split]; cbn; lia.
  - rewrite prompts_sent_extraction, total_sleep_extraction.
    unfold extraction_events.
    destruct (is_pdf (filename file)); (split; [|split]); cbn; lia.
  - rewrite prompts_sent_app, prompts_sent_extraction, total_sleep_app,
      total_sleep_extraction, filter_app, length_app.
    cbn [app].
    destruct (retry_calls_and_sleep ext THE_MODEL txt DEFAULT_RETRIES 0)
      as [Hcalls [_ Hsleep]].
    pose proof (retry_loop_run ext THE_MODEL txt (seq 0 DEFAULT_RETRIES) 0)
      as Hrun.
    apply retry_run_no_extract in Hrun.
    fold (retry_gemini_request ext THE_MODEL txt DEFAULT_RETRIES 0) in Hrun.
    assert (Hnone : filter is_extract
                      (snd (retry_gemini_request ext THE_MODEL txt
                              DEFAULT_RETRIES 0)) = []).
    { now apply filter_none. }
    rewrite Hnone.
    change (2 ^ Z.of_nat DEFAULT_RETRIES - 1)%Z with 7%Z in Hsleep.
    split; [exact Hcalls|]. split; [lia|].
    unfold extraction_events.
    destruct (is_pdf (filename file)); simpl; lia.
Qed.

(** The result of the three retries of the endpoint, read off the
    calls. *)
Lemma endpoint_first_answer (ext : externals) (txt : pystr) :
  fst (fst (retry_gemini_request ext THE_MODEL txt DEFAULT_RETRIES 0))
  = match first_answer ext THE_MODEL txt 0 3 with
    | Some r => Ok r
    | None => Raise ServiceUnavailable
    end.
Proof.
  unfold retry_gemini_request, DEFAULT_RETRIES.
  rewrite retry_loop_first_answer by lia. reflexivity.
Qed.

(** X7: the two [except] clauses of [analyze_resume], around any [try]
    block: a result is returned as it is; an [HTTPException] raised in
    the block, whoever raised it, passes through with its status and
    detail; any other instance of [Exception] becomes the 500 with
    detail [Internal server error]; an exception that is no instance of
    [Exception] ([KeyboardInterrupt], [SystemExit]) is not caught and
    leaves the handler; and the handlers add no event.  For the endpoint
    itself, whose collaborators raise instances of [Exception] of their
    own libraries, every response is therefore the success envelope with
    status 200 or one of five fixed failures (three with status 400, two
    with status 500). *)
Theorem responses_known (ext : externals) (file : UploadFile) :
  (forall (body : M envelope) (n : nat),
      fst (fst (try_except body analyze_resume_except n))
      = match fst (fst (body n)) with
        | Ok v => Ok v
        | Raise (HTTPException code detail) =>
          Raise (HTTPException code detail)
        | Raise (BaseException msg) => Raise (BaseException msg)
        | Raise _ => Raise InternalError
        end
      /\ snd (try_except body analyze_resume_except n) = snd (body n))
  /\ analyze_resume ext file
     = try_except (analyze_resume_body ext file) analyze_resume_except
  /\ known_response (fst (post_analyze ext file))
  /\ fst (post_analyze ext file) <> UnhandledServerError
  /\ (status_of (fst (post_analyze ext file)) = 200
      \/ status_of (fst (post_analyze ext file)) = 400
      \/ status_of (fst (post_analyze ext file)) = 500)%Z.
Proof.
  split.
  { intros body n. unfold try_except.
    destruct (body n) as [[[v|e] n1] t1]; [now split|].
    destruct e; cbn; now rewrite ?app_nil_r. }
  split; [reflexivity|].
  unfold known_response. rewrite post_analyze_eq.
  destruct (negb _); [cbn; intuition congruence|].
  destruct (_ =? _)%Z; [cbn; intuition congruence|].
  destruct (_ >? _)%Z; [cbn; intuition congruence|].
  destruct (extracted_text ext file) as [txt|];
    [|cbn; intuition congruence].
  destruct (retry_gemini_request ext THE_MODEL txt DEFAULT_RETRIES 0)
    as [[[x|e] n'] tr]; cbn [fst respond_retry]; [|cbn; intuition congruence].
  destruct (text x) as [answer|]; [|cbn; intuition congruence].
  split; [left; now exists answer|]. split; [discriminate|now left].
Qed.

(** X8: the response has a 400-class status exactly when the upload fails
    one of the three validation rules, and then the request emits no
    event: the collaborators have no say in a rejection. *)
Theorem client_error_iff_rejected (ext : externals) (file : UploadFile) :
  is_client_error (fst (post_analyze ext file)) = negb (accepted file)
  /\ (accepted file = false ->
      snd (post_analyze ext file) = []
      /\ forall ext', post_analyze ext' file = post_analyze ext file).
Proof.
  split.
  - destruct (post_analyze_branches ext file)
      as [[-> [_ [detail ->]]]|[[-> [_ ->]]|[-> [txt [_ ->]]]]];
      try reflexivity.
    cbn [fst negb].
    destruct (fst (fst (retry_gemini_request ext THE_MODEL txt
                          DEFAULT_RETRIES 0))) as [x|e];
      cbn [respond_retry]; [|reflexivity].
    now destruct (text x).
  - intros Hrej. split.
    + destruct (post_analyze_branches ext file)
        as [[_ [H _]]|[[Hacc _]|[Hacc _]]]; [exact H|congruence|congruence].
    + intros ext'. rewrite !post_analyze_eq.
      unfold accepted in Hrej.
      rewrite ExtensionFacts.has_allowed_suffix_extension in Hrej.
      destruct (Extension.extension_allowed (filename file));
        [|reflexivity].
      destruct (len (contents file) =? 0)%Z; [reflexivity|].
      destruct (len (contents file) >? MAX_BYTES)%Z; [reflexivity|].
      discriminate.
Qed.

Lemma client_error_iff_rejected_witness :
  accepted (Samples.sized "cv.exe" 5242881) = false
  /\ snd (post_analyze Samples.model_third (Samples.sized "cv.exe" 5242881))
     = [].
Proof.
  assert (Hrej : accepted (Samples.sized "cv.exe" 5242881) = false).
  { unfold accepted. rewrite sized_filename. reflexivity. }
  split; [exact Hrej|].
  apply (client_error_iff_rejected Samples.model_third
           (Samples.sized "cv.exe" 5242881)).
  exact Hrej.
Defined.

(** X9: the endpoint answers with the success envelope holding [d]
    exactly when the upload passes validation, the extraction step
    yields a text, one of the three calls of the model for that text does
    not fail, and the first answer returned has the text [d].  When that
    first answer has no text part, reading [response.text] raises inside
    the [try] block: the endpoint answers with the 500
    [Internal server error], and the call that returned the answer is
    the last event of the request: it is not retried. *)
Theorem success_iff_first_answer
    (ext : externals) (file : UploadFile) (d : pystr) :
  (fst (post_analyze ext file) = JSONData 200 d
   <-> (accepted file = true
        /\ exists txt r,
            extracted_text ext file = Some txt
            /\ first_answer ext THE_MODEL txt 0 3 = Some r
            /\ text r = Some d))
  /\ (forall txt r,
        accepted file = true ->
        extracted_text ext file = Some txt ->
        first_answer ext THE_MODEL txt 0 3 = Some r ->
        text r = None ->
        fst (post_analyze ext file) = response_of_exn InternalError
        /\ exists pre,
            snd (post_analyze ext file)
            = pre ++ [EvGenerateContent (prompt txt) (inl r)]).
Proof.
  destruct (post_analyze_branches ext file)
    as [[Hacc [_ [detail Herr]]]|[[Hacc [Hnone ->]]|[Hacc [txt [Htxt ->]]]]].
  - split; [split|].
    + intros H. rewrite H in Herr. discriminate.
    + intros [H _]. congruence.
    + intros txt r H. congruence.
  - split; [split|].
    + discriminate.
    + intros [_ [txt [r [Htxt _]]]]. congruence.
    + intros txt r _ Htxt. congruence.
  - cbn [fst snd].
    pose proof (retry_loop_run ext THE_MODEL txt (seq 0 DEFAULT_RETRIES) 0)
      as Hrun.
    fold (retry_gemini_request ext THE_MODEL txt DEFAULT_RETRIES 0) in Hrun.
    rewrite endpoint_first_answer in Hrun |- *.
    split; [split|].
    + destruct (first_answer ext THE_MODEL txt 0 3) as [r|] eqn:Hfa;
        [|discriminate].
      cbn [respond_retry].
      destruct (text r) as [answer|] eqn:Hanswer; [|discriminate].
      intros [= <-]. split; [assumption|]. now exists txt, r.
    + intros [_ [txt' [r [Htxt' [Hr Hd]]]]].
      assert (txt' = txt) by congruence. subst txt'.
      rewrite Hr. cbn [respond_retry]. now rewrite Hd.
    + intros txt' r _ Htxt' Hr Hnone.
      assert (txt' = txt) by congruence. subst txt'.
      rewrite Hr in Hrun |- *. cbn [respond_retry]. rewrite Hnone.
      split; [reflexivity|].
      apply retry_run_ok_last in Hrun as [pre ->].
      exists (extraction_events file ++ pre). now rewrite app_assoc.
Qed.

Lemma success_iff_first_answer_witness :
  fst (post_analyze MoreSamples.model_blocked Samples.good_txt)
  = response_of_exn InternalError
  /\ exists pre,
      snd (post_analyze MoreSamples.model_blocked Samples.good_txt)
      = pre ++ [EvGenerateContent (prompt (py "Hello World"))
                  (inl MoreSamples.no_text)].
Proof.
  destruct (success_iff_first_answer MoreSamples.model_blocked
              Samples.good_txt []) as [_ Hblocked].
  apply (Hblocked (py "Hello World") MoreSamples.no_text);
    reflexivity.
Defined.

(** X10: when the endpoint answers with the success envelope, the last
    event of the request is the call of the model that returned the text
    in the envelope: nothing is called and nothing is slept after the
    answer. *)
Theorem answer_is_last_event
    (ext : externals) (file : UploadFile) (s : Z) (d : pystr) :
  fst (post_analyze ext file) = JSONData s d ->
  exists pre txt r,
    extracted_text ext file = Some txt
    /\ snd (post_analyze ext file)
       = pre ++ [EvGenerateContent (prompt txt) (inl r)]
    /\ text r = Some d.
Proof.
  destruct (post_analyze_branches ext file)
    as [[_ [_ [detail Herr]]]|[[_ [_ ->]]|[_ [txt [Htxt ->]]]]].
  - intros H. rewrite H in Herr. discriminate.
  - discriminate.
  - cbn [fst snd].
    pose proof (retry_loop_run ext THE_MODEL txt (seq 0 DEFAULT_RETRIES) 0)
      as Hrun.
    fold (retry_gemini_request ext THE_MODEL txt DEFAULT_RETRIES 0) in Hrun.
    destruct (fst (fst (retry_gemini_request ext THE_MODEL txt
                          DEFAULT_RETRIES 0))) as [r|e];
      [|discriminate].
    cbn [respond_retry].
    destruct (text r) as [answer|] eqn:Hanswer; [|discriminate].
    intros [= _ <-].
    apply retry_run_ok_last in Hrun as [pre ->].
    exists (extraction_events file ++ pre), txt, r.
    split; [assumption|]. split; [now rewrite app_assoc|assumption].
Qed.

Lemma answer_is_last_event_witness :
  exists pre txt r,
    extracted_text MoreSamples.model_up MoreSamples.pdf_upload = Some txt
    /\ snd (post_analyze MoreSamples.model_up MoreSamples.pdf_upload)
       = pre ++ [EvGenerateContent (prompt txt) (inl r)]
    /\ text r = Some (py "{}").
Proof.
  apply (answer_is_last_event MoreSamples.model_up MoreSamples.pdf_upload
           200 (py "{}")).
  reflexivity.
Defined.

(* ================================================================= *)
(** ** The extraction step *)

Lemma is_pdf_allowed (name : pystr) :
  is_pdf name = true -> has_allowed_suffix name = true.
Proof.
  unfold is_pdf, has_allowed_suffix, endswith_any, ALLOWED_SUFFIXES.
  cbn [existsb]. now intros ->.
Qed.

Lemma existsb_extract_extraction (file : UploadFile) :
  is_pdf (filename file) = false ->
  existsb is_extract (extraction_events file) = false.
Proof. unfold extraction_events. now intros ->. Qed.

Lemma retry_no_extract (ext : externals) (txt : pystr) :
  existsb is_extract
    (snd (retry_gemini_request ext THE_MODEL txt DEFAULT_RETRIES 0)) = false.
Proof.
  pose proof (retry_loop_run ext THE_MODEL txt (seq 0 DEFAULT_RETRIES) 0)
    as Hrun.
  now apply retry_run_no_extract in Hrun.
Qed.

(** X11: a name that does not end in [.pdf] (so every doc, docx and txt
    upload) never reaches the PDF extraction routine; an upload whose
    name ends in [.pdf], in any case, and which holds between 1 and
    5,242,880 bytes starts its request with one call of the extraction
    routine on exactly the bytes of the upload, and that is the only
    one. *)
Theorem extraction_routing (ext : externals) (file : UploadFile) :
  (is_pdf (filename file) = false ->
   existsb is_extract (snd (post_analyze ext file)) = false)
  /\ (is_pdf (filename file) = true ->
      (0 < len (contents file) <= 5242880)%Z ->
      exists rest,
        snd (post_analyze ext file) = EvExtractText (contents file) :: rest
        /\ existsb is_extract rest = false).
Proof.
  split.
  - intros Hpdf.
    destruct (post_analyze_branches ext file)
      as [[_ [-> _]]|[[_ [_ ->]]|[_ [txt [_ ->]]]]]; cbn [snd].
    + reflexivity.
    + now apply existsb_extract_extraction.
    + rewrite existsb_app, existsb_extract_extraction by assumption.
      apply retry_no_extract.
  - intros Hpdf [Hpos Hmax].
    assert (Hacc : accepted file = true).
    { unfold accepted. rewrite (is_pdf_allowed _ Hpdf), MAX_BYTES_value.
      destruct (Z.eqb_spec (len (contents file)) 0); [lia|].
      destruct (Z.gtb_spec (len (contents file)) 5242880); [lia|].
      reflexivity. }
    destruct (post_analyze_branches ext file)
      as [[Hrej _]|[[_ [_ ->]]|[_ [txt [_ ->]]]]]; [congruence| |];
      cbn [snd]; unfold extraction_events; rewrite Hpdf.
    + now exists [].
    + eexists. split; [reflexivity|]. apply retry_no_extract.
Qed.

Lemma extraction_routing_witness :
  existsb is_extract
    (snd (post_analyze MoreSamples.model_up Samples.good_txt)) = false
  /\ exists rest,
      snd (post_analyze MoreSamples.model_up MoreSamples.pdf_upload)
      = EvExtractText (contents MoreSamples.pdf_upload) :: rest
      /\ existsb is_extract rest = false.
Proof.
  split.
  - apply (extraction_routing MoreSamples.model_up Samples.good_txt).
    reflexivity.
  - apply (extraction_routing MoreSamples.model_up MoreSamples.pdf_upload).
    + reflexivity.
    + vm_compute. split; [reflexivity|discriminate].
Defined.

Lemma decode_ascii (bs : list byte) :
  ascii_only bs = true -> Utf8.decode bs = Some (map Byte.to_N bs).
Proof.
  induction bs as [|b bs IH]; [reflexivity|].
  cbn [ascii_only forallb]. intros H.
  apply andb_true_iff in H as [Hb Hbs].
  cbn [Utf8.decode map]. rewrite Hb.
  unfold ascii_only in IH. now rewrite (IH Hbs).
Qed.

(** X12: for an upload on the non-PDF path whose bytes are all ASCII, the
    text is the upload itself, byte for byte as characters, and every
    prompt sent for it is the prompt of that text. *)
Theorem ascii_upload_text (ext : externals) (file : UploadFile) :
  is_pdf (filename file) = false ->
  ascii_only (contents file) = true ->
  extracted_text ext file = Some (map Byte.to_N (contents file))
  /\ Forall (eq (prompt (map Byte.to_N (contents file))))
       (prompts_sent (snd (post_analyze ext file))).
Proof.
  intros Hpdf Hascii.
  assert (Htxt : extracted_text ext file
                 = Some (map Byte.to_N (contents file))).
  { unfold extracted_text. rewrite Hpdf. now apply decode_ascii. }
  split; [exact Htxt|].
  destruct (prompts_of_request ext file) as [->|[txt [Htxt' [_ Hall]]]];
    [constructor|].
  assert (txt = map Byte.to_N (contents file)) by congruence.
  now subst txt.
Qed.

Lemma ascii_upload_text_witness :
  extracted_text Samples.model_third Samples.good_txt
  = Some (py "Hello World")
  /\ Forall (eq (prompt (py "Hello World")))
       (prompts_sent (snd (post_analyze Samples.model_third
                             Samples.good_txt))).
Proof.
  apply (ascii_upload_text Samples.model_third Samples.good_txt);
    reflexivity.
Defined.

(* ================================================================= *)
(** ** What the caller cannot see *)

Section Messages.

Variables e1 e2 : externals.
Hypothesis Hsame : same_up_to_messages e1 e2.

Lemma same_extracted_text (file : UploadFile) :
  extracted_text e1 file = extracted_text e2 file.
Proof.
  unfold extracted_text. destruct (is_pdf (filename file)); [|reflexivity].
  destruct Hsame as [Hpdf _]. specialize (Hpdf (contents file)).
  unfold same_outcome in Hpdf.
  destruct (pdf_extract_text e1 (contents file)),
    (pdf_extract_text e2 (contents file)); congruence || contradiction.
Qed.

(** The two worlds give the same result, the same number of calls and
    the same sleeps. *)
Lemma same_retry_loop (mdl : GenerativeModel) (txt : pystr)
    (attempts : list nat) (n : nat) :
  fst (retry_loop e1 mdl txt attempts n) = fst (retry_loop e2 mdl txt attempts n)
  /\ sleeps (snd (retry_loop e1 mdl txt attempts n))
     = sleeps (snd (retry_loop e2 mdl txt attempts n))
  /\ List.length (prompts_sent (snd (retry_loop e1 mdl txt attempts n)))
     = List.length (prompts_sent (snd (retry_loop e2 mdl txt attempts n))).
Proof.
  revert n; induction attempts as [|attempt rest IH]; intros n.
  - repeat split.
  - destruct Hsame as [_ Hgen].
    specialize (Hgen n mdl (prompt txt) generation_config).
    fold (call_at e1 mdl txt n) in Hgen. fold (call_at e2 mdl txt n) in Hgen.
    unfold same_outcome in Hgen.
    destruct (call_at e1 mdl txt n) as [r1|m1] eqn:H1,
      (call_at e2 mdl txt n) as [r2|m2] eqn:H2; try contradiction.
    + subst r2.
      rewrite (retry_loop_ok e1 mdl txt attempt rest n r1 H1),
        (retry_loop_ok e2 mdl txt attempt rest n r1 H2).
      repeat split.
    + destruct (Z_le_gt_dec (2 ^ Z.of_nat attempt) SLEEP_MAX) as [Hs|Hs].
      * rewrite (retry_loop_fail e1 mdl txt attempt rest n m1 H1 Hs),
          (retry_loop_fail e2 mdl txt attempt rest n m2 H2 Hs).
        destruct (IH (S n)) as [Hres [Hsl Hcalls]].
        destruct (retry_loop e1 mdl txt rest (S n)) as [[r1 n1] t1],
          (retry_loop e2 mdl txt rest (S n)) as [[r2 n2] t2].
        cbn [fst snd] in *. injection Hres as -> ->.
        cbn [sleeps prompts_sent List.length]. rewrite Hsl, Hcalls.
        repeat split.
      * rewrite (retry_loop_overflow e1 mdl txt attempt rest n m1 H1),
          (retry_loop_overflow e2 mdl txt attempt rest n m2 H2) by lia.
        repeat split.
Qed.

End Messages.

(** X13: the messages of the exceptions the collaborators raise never
    reach the caller, nor do they change what the request does: two
    worlds whose collaborators fail on the same calls, with messages of
    their own, get the same response, the same number of model calls and
    the same sleeps. *)
Theorem failure_messages_hidden
    (e1 e2 : externals) (file : UploadFile) :
  same_up_to_messages e1 e2 ->
  fst (post_analyze e1 file) = fst (post_analyze e2 file)
  /\ sleeps (snd (post_analyze e1 file)) = sleeps (snd (post_analyze e2 file))
  /\ List.length (prompts_sent (snd (post_analyze e1 file)))
     = List.length (prompts_sent (snd (post_analyze e2 file))).
Proof.
  intros Hsame. rewrite !post_analyze_eq.
  destruct (negb _); [repeat split|].
  destruct (_ =? _)%Z; [repeat split|].
  destruct (_ >? _)%Z; [repeat split|].
  rewrite <- (same_extracted_text e1 e2 Hsame file).
  destruct (extracted_text e1 file) as [txt|]; [|repeat split].
  unfold retry_gemini_request.
  destruct (same_retry_loop e1 e2 Hsame THE_MODEL txt
              (seq 0 DEFAULT_RETRIES) 0) as [Hres [Hsl Hcalls]].
  destruct (retry_loop e1 THE_MODEL txt (seq 0 DEFAULT_RETRIES) 0)
    as [[r1 n1] t1],
    (retry_loop e2 THE_MODEL txt (seq 0 DEFAULT_RETRIES) 0)
    as [[r2 n2] t2].
  cbn [fst snd] in *. injection Hres as -> ->.
  rewrite !sleeps_app, !prompts_sent_app, !length_app, Hsl, Hcalls.
  repeat split.
Qed.

Lemma failure_messages_hidden_witness :
  fst (post_analyze Samples.model_down MoreSamples.pdf_upload)
  = fst (post_analyze MoreSamples.model_down_verbose MoreSamples.pdf_upload)
  /\ fst (post_analyze Samples.model_down Samples.good_txt)
     = fst (post_analyze MoreSamples.model_down_verbose Samples.good_txt).
Proof.
  assert (Hsame : same_up_to_messages Samples.model_down
                    MoreSamples.model_down_verbose)
    by (split; intros; exact I).
  split.
  - apply (failure_messages_hidden Samples.model_down
             MoreSamples.model_down_verbose MoreSamples.pdf_upload Hsame).
  - apply (failure_messages_hidden Samples.model_down
             MoreSamples.model_down_verbose Samples.good_txt Hsame).
Defined.

(* ================================================================= *)
(** ** Startup, in full *)

(** X14: the module initialisation completes exactly when the
    environment holds a non-empty [GEMINI_API_KEY], and then the global
    is that value; an empty value aborts like a missing one; and whether
    [genai.configure] raises or not changes nothing, since
    [configure_gemini] swallows the exception. *)
Theorem startup_iff
    (genai_configure : option string -> unit + string)
    (env : environ) (g : globals) :
  (module_init genai_configure env = Ok g
   <-> exists v,
        getenv env "GEMINI_API_KEY" = Some v
        /\ v <> EmptyString
        /\ g = {| GEMINI_API_KEY := Some v |})
  /\ (getenv env "GEMINI_API_KEY" = Some EmptyString ->
      module_init genai_configure env
      = Raise (RuntimeError "API key not configured"))
  /\ (forall genai_configure',
        module_init genai_configure' env = module_init genai_configure env).
Proof.
  unfold module_init.
  destruct (getenv env "GEMINI_API_KEY") as [v|] eqn:Hget; cbn [truthy].
  - destruct (String.eqb_spec v EmptyString) as [->|Hv]; cbn [negb].
    + split; [|split; [reflexivity|reflexivity]]. split; [discriminate|].
      intros [v [[= <-] [Hv _]]]. congruence.
    + split; [|split; [intros [= ->]; congruence|reflexivity]]. split.
      * intros [= <-]. now exists v.
      * intros [v' [[= <-] [_ ->]]]. reflexivity.
  - cbn [negb]. split; [|split; [discriminate|reflexivity]].
    split; [discriminate|]. intros [v [Hv _]]. discriminate.
Qed.

Lemma startup_iff_witness :
  module_init (fun _ => inr "configure failed"%string)
    Samples.environ_with_key
  = Ok {| GEMINI_API_KEY := Some "secret"%string |}
  /\ module_init Samples.configure_ok
       [("GEMINI_API_KEY", EmptyString)]%string
     = Raise (RuntimeError "API key not configured").
Proof.
  split.
  - destruct (startup_iff (fun _ => inr "configure failed"%string)
                Samples.environ_with_key
                {| GEMINI_API_KEY := Some "secret"%string |})
      as [[_ Hok] _].
    apply Hok. exists "secret"%string.
    split; [reflexivity|]. split; [discriminate|reflexivity].
  - destruct (startup_iff Samples.configure_ok
                [("GEMINI_API_KEY", EmptyString)]%string
                {| GEMINI_API_KEY := None |})
      as [_ [Hempty _]].
    apply Hempty. reflexivity.
Defined.

(* ================================================================= *)
(** ** The size of the prompt *)

Lemma template_len : len (py PROMPT_TEMPLATE) = 549%Z.
Proof. reflexivity. Qed.

(** X15: the prompt always starts with the template; its length is 549
    plus the length of the text, capped at 45,000; and a text of at most
    45,000 characters is in the prompt whole. *)
Theorem prompt_length (txt : pystr) :
  startswith (prompt txt) (py PROMPT_TEMPLATE) = true
  /\ len (prompt txt) = (549 + Z.min 45000 (len txt))%Z
  /\ ((len txt <= 45000)%Z -> prompt txt = py PROMPT_TEMPLATE ++ txt).
Proof.
  split; [apply startswith_app|]. split.
  - unfold prompt, slice_to, TEXT_LIMIT, len.
    rewrite length_app, length_firstn, Nat2Z.inj_add.
    fold (len (py PROMPT_TEMPLATE)). rewrite template_len. lia.
  - intros Hlen. unfold prompt, slice_to, TEXT_LIMIT.
    rewrite firstn_all2; [reflexivity|]. unfold len in Hlen. lia.
Qed.

Lemma prompt_length_witness :
  len (prompt (py "Hello World")) = 560%Z
  /\ prompt (py "Hello World") = py PROMPT_TEMPLATE ++ py "Hello World".
Proof.
  destruct (prompt_length (py "Hello World")) as [_ [Hlen Hwhole]].
  split; [exact Hlen|].
  apply Hwhole. vm_compute. discriminate.
Defined.
